(** * pip_search: a shallow embedding of [pip_search/pip_search.py]

    The module scrapes the search pages of a package index.  Before the
    index serves results the client has to answer a proof-of-work
    challenge; afterwards the result snippets are turned into [Package]
    objects, optionally enriched with figures of the code-hosting API.

    Python strings are modelled by [string]; a character stands for a code
    point below 256.  Code that can raise returns a [result]; code that
    talks to the network threads the session explicitly. *)

From Stdlib Require Import ZArith List String Ascii Bool Lia SpecFloat.
Import ListNotations.
Open Scope string_scope.
Open Scope Z_scope.

(** ** Python string primitives used by the module *)

Module PyStr.

(** [str.isspace] on a single code point below 256; [str.split()],
    [str.strip()] and the pattern [\s] all use this class. *)
Definition isspace (c : ascii) : bool :=
  let n := N_of_ascii c in
  ((9 <=? n) && (n <=? 13) || (28 <=? n) && (n <=? 32)
   || (n =? 133) || (n =? 160))%N.

(** [sub in s]: substring test. *)
Fixpoint contains (sub s : string) : bool :=
  if String.prefix sub s then true
  else match s with
       | EmptyString => false
       | String _ s' => contains sub s'
       end.

(** [s.replace(old, new)] for a non-empty [old]: occurrences are replaced
    from left to right and do not overlap.  [skip] counts the characters
    of a matched occurrence that are still to be dropped. *)
Fixpoint replace_from (old new : string) (skip : nat) (s : string) : string :=
  match s with
  | EmptyString => EmptyString
  | String c s' =>
      match skip with
      | S k => replace_from old new k s'
      | O =>
          if String.prefix old s
          then new ++ replace_from old new (Nat.pred (String.length old)) s'
          else String c (replace_from old new O s')
      end
  end.

Definition replace (old new s : string) : string := replace_from old new O s.

(** [s.split(sep)] for a non-empty [sep]; [cur] holds the characters of the
    current field, last one first. *)
Fixpoint rev_string (acc s : string) : string :=
  match s with
  | EmptyString => acc
  | String c s' => rev_string (String c acc) s'
  end.

Fixpoint split_from (sep : string) (skip : nat) (cur s : string) : list string :=
  match s with
  | EmptyString => [rev_string "" cur]
  | String c s' =>
      match skip with
      | S k => split_from sep k cur s'
      | O =>
          if String.prefix sep s
          then rev_string "" cur
                 :: split_from sep (Nat.pred (String.length sep)) "" s'
          else split_from sep O (String c cur) s'
      end
  end.

Definition split_sep (sep s : string) : list string := split_from sep O "" s.

(** [s.split()]: the maximal runs of non-whitespace characters. *)
Fixpoint split_ws_from (cur s : string) : list string :=
  match s with
  | EmptyString =>
      match cur with EmptyString => [] | _ => [rev_string "" cur] end
  | String c s' =>
      if isspace c
      then match cur with
           | EmptyString => split_ws_from "" s'
           | _ => rev_string "" cur :: split_ws_from "" s'
           end
      else split_ws_from (String c cur) s'
  end.

Definition split (s : string) : list string := split_ws_from "" s.

(** [s.lstrip()], [s.rstrip()], [s.strip()] and [s.rstrip(ch)]. *)
Fixpoint lstrip (s : string) : string :=
  match s with
  | String c s' => if isspace c then lstrip s' else s
  | EmptyString => EmptyString
  end.

Fixpoint rstrip_with (drop : ascii -> bool) (s : string) : string :=
  match s with
  | EmptyString => EmptyString
  | String c s' =>
      match rstrip_with drop s' with
      | EmptyString => if drop c then EmptyString else String c EmptyString
      | t => String c t
      end
  end.

Definition strip (s : string) : string := rstrip_with isspace (lstrip s).

Definition rstrip_char (ch : ascii) (s : string) : string :=
  rstrip_with (Ascii.eqb ch) s.

(** [re.sub] of whitespace runs by one space: every maximal run of
    whitespace becomes one space.  [inrun] tells that the previous character was whitespace. *)
Fixpoint collapse_from (inrun : bool) (s : string) : string :=
  match s with
  | EmptyString => EmptyString
  | String c s' =>
      if isspace c
      then if inrun then collapse_from true s'
           else String " " (collapse_from true s')
      else String c (collapse_from false s')
  end.

Definition collapse_ws (s : string) : string := collapse_from false s.

(** [s.endswith(suffix)]. *)
Definition endswith (suffix s : string) : bool :=
  let n := String.length s in
  let k := String.length suffix in
  (k <=? n)%nat && String.eqb (String.substring (n - k) k s) suffix.

(** [c in p] for a character. *)
Definition occurs (c : ascii) (p : string) : bool :=
  existsb (Ascii.eqb c) (list_ascii_of_string p).

(** A string without any character outside the whitespace class. *)
Definition all_space (s : string) : bool :=
  forallb isspace (list_ascii_of_string s).

(** Stripping one trailing [/tags] segment, as the specification words the
    clean-up of the repository link. *)
Definition strip_trailing_tags (s : string) : string :=
  if endswith "/tags" s
  then String.substring 0 (String.length s - 5) s
  else s.

End PyStr.

(** ** SHA-256 (FIPS 180-4), the digest behind [hashlib.sha256] *)

Module SHA256.

Definition w32 (x : Z) : Z := x mod 2 ^ 32.
Definition add32 (x y : Z) : Z := w32 (x + y).
Definition rotr (n x : Z) : Z :=
  Z.lor (Z.shiftr x n) (w32 (Z.shiftl x (32 - n))).
Definition shr (n x : Z) : Z := Z.shiftr x n.
Definition not32 (x : Z) : Z := 2 ^ 32 - 1 - x.

Definition Ch (x y z : Z) : Z := Z.lxor (Z.land x y) (Z.land (not32 x) z).
Definition Maj (x y z : Z) : Z :=
  Z.lxor (Z.lxor (Z.land x y) (Z.land x z)) (Z.land y z).
Definition Sigma0 (x : Z) := Z.lxor (Z.lxor (rotr 2 x) (rotr 13 x)) (rotr 22 x).
Definition Sigma1 (x : Z) := Z.lxor (Z.lxor (rotr 6 x) (rotr 11 x)) (rotr 25 x).
Definition sigma0 (x : Z) := Z.lxor (Z.lxor (rotr 7 x) (rotr 18 x)) (shr 3 x).
Definition sigma1 (x : Z) := Z.lxor (Z.lxor (rotr 17 x) (rotr 19 x)) (shr 10 x).

(** The constants are the leading 32 fractional bits of the square and
    cube roots of the first primes; they are computed rather than listed. *)
Fixpoint is_prime_by (ds : list Z) (n : Z) : bool :=
  match ds with
  | [] => true
  | d :: ds' => negb (n mod d =? 0) && is_prime_by ds' n
  end.

Fixpoint primes_from (fuel : nat) (n : Z) (found : list Z) : list Z :=
  match fuel with
  | O => rev found
  | S f =>
      if is_prime_by found n then primes_from f (n + 1) (n :: found)
      else primes_from f (n + 1) found
  end.

Definition primes64 : list Z := Eval vm_compute in primes_from 310 2 [].

(** Integer cube root by bisection on [lo <= r < hi]. *)
Fixpoint cbrt_between (fuel : nat) (lo hi n : Z) : Z :=
  match fuel with
  | O => lo
  | S f =>
      if hi - lo <=? 1 then lo
      else let mid := (lo + hi) / 2 in
           if mid * mid * mid <=? n then cbrt_between f mid hi n
           else cbrt_between f lo mid n
  end.

Definition frac_sqrt (p : Z) : Z := w32 (Z.sqrt (p * 2 ^ 64)).
Definition frac_cbrt (p : Z) : Z := w32 (cbrt_between 64 0 (2 ^ 40) (p * 2 ^ 96)).

Definition K : list Z := Eval vm_compute in map frac_cbrt primes64.
Definition H0 : list Z := Eval vm_compute in map frac_sqrt (firstn 8 primes64).

(** Padding: a one bit, zeros up to 56 modulo 64, the bit length on 8 bytes. *)
Fixpoint be_bytes (k : nat) (x : Z) : list Z :=
  match k with
  | O => []
  | S k' => (x / 256 ^ Z.of_nat k') mod 256 :: be_bytes k' x
  end.

Definition pad (msg : list Z) : list Z :=
  let len := Z.of_nat (List.length msg) in
  let zeros := Z.to_nat ((55 - len) mod 64) in
  msg ++ 128 :: repeat 0 zeros ++ be_bytes 8 (8 * len).

Fixpoint words_of (fuel : nat) (bs : list Z) : list Z :=
  match fuel, bs with
  | S f, b0 :: b1 :: b2 :: b3 :: rest =>
      (((b0 * 256 + b1) * 256 + b2) * 256 + b3) :: words_of f rest
  | _, _ => []
  end.

(** Message schedule; [ws] holds the words computed so far, last first. *)
Fixpoint schedule (k : nat) (ws : list Z) : list Z :=
  match k with
  | O => rev ws
  | S k' =>
      let w := add32 (add32 (sigma1 (nth 1 ws 0)) (nth 6 ws 0))
                     (add32 (sigma0 (nth 14 ws 0)) (nth 15 ws 0)) in
      schedule k' (w :: ws)
  end.

Record regs := Regs { ra : Z; rb : Z; rc : Z; rd : Z;
                      re : Z; rf : Z; rg : Z; rh : Z }.

Definition round (r : regs) (kw : Z * Z) : regs :=
  let t1 := add32 (add32 (add32 (rh r) (Sigma1 (re r)))
                         (add32 (Ch (re r) (rf r) (rg r)) (fst kw))) (snd kw) in
  let t2 := add32 (Sigma0 (ra r)) (Maj (ra r) (rb r) (rc r)) in
  Regs (add32 t1 t2) (ra r) (rb r) (rc r) (add32 (rd r) t1) (re r) (rf r) (rg r).

Definition compress (h : regs) (block : list Z) : regs :=
  let w := schedule 48 (rev block) in
  let r := fold_left round (combine K w) h in
  Regs (add32 (ra h) (ra r)) (add32 (rb h) (rb r)) (add32 (rc h) (rc r))
       (add32 (rd h) (rd r)) (add32 (re h) (re r)) (add32 (rf h) (rf r))
       (add32 (rg h) (rg r)) (add32 (rh h) (rh r)).

Fixpoint blocks (fuel : nat) (h : regs) (ws : list Z) : regs :=
  match fuel, ws with
  | S f, _ :: _ => blocks f (compress h (firstn 16 ws)) (skipn 16 ws)
  | _, _ => h
  end.

Definition init : regs :=
  Regs (nth 0 H0 0) (nth 1 H0 0) (nth 2 H0 0) (nth 3 H0 0)
       (nth 4 H0 0) (nth 5 H0 0) (nth 6 H0 0) (nth 7 H0 0).

Definition digest_words (msg : list Z) : regs :=
  let bs := pad msg in
  let ws := words_of (List.length bs) bs in
  blocks (List.length ws) init ws.

(** [hexdigest]: eight lower-case hexadecimal digits per word. *)
Definition hexchar (d : Z) : ascii :=
  if d <? 10 then ascii_of_N (Z.to_N (48 + d)) else ascii_of_N (Z.to_N (87 + d)).

Definition hex32 (x : Z) (tail : string) : string :=
  String (hexchar ((x / 2 ^ 28) mod 16)) (String (hexchar ((x / 2 ^ 24) mod 16))
  (String (hexchar ((x / 2 ^ 20) mod 16)) (String (hexchar ((x / 2 ^ 16) mod 16))
  (String (hexchar ((x / 2 ^ 12) mod 16)) (String (hexchar ((x / 2 ^ 8) mod 16))
  (String (hexchar ((x / 2 ^ 4) mod 16)) (String (hexchar (x mod 16)) tail))))))).

Definition hex_of_regs (r : regs) : string :=
  hex32 (ra r) (hex32 (rb r) (hex32 (rc r) (hex32 (rd r)
  (hex32 (re r) (hex32 (rf r) (hex32 (rg r) (hex32 (rh r) ""))))))).

(** [str.encode()]: UTF-8 of code points below 256. *)
Fixpoint utf8 (s : string) : list Z :=
  match s with
  | EmptyString => []
  | String c s' =>
      let n := Z.of_N (N_of_ascii c) in
      if n <? 128 then n :: utf8 s'
      else Z.lor 192 (Z.shiftr n 6) :: Z.lor 128 (Z.land n 63) :: utf8 s'
  end.

(** [hashlib.sha256(s.encode()).hexdigest()] *)
Definition hexdigest (s : string) : string := hex_of_regs (digest_words (utf8 s)).

End SHA256.

(** ** Python values, exceptions and results *)

(** The values that reach the module from JSON bodies and option objects;
    a float is an IEEE 754 value. *)
#[warnings="-register-all"]
Inductive pyval :=
| PNone
| PBool (b : bool)
| PInt (n : Z)
| PFloat (x : spec_float)
| PStr (s : string)
| PList (items : list pyval)
| PDict (members : list (string * pyval)).

(** Truth value testing, as [if v:] does it. *)
Definition truthy (v : pyval) : bool :=
  match v with
  | PNone => false
  | PBool b => b
  | PInt n => negb (n =? 0)
  | PFloat x => match x with S754_zero _ => false | _ => true end
  | PStr s => negb (String.eqb s "")
  | PList l => match l with [] => false | _ => true end
  | PDict d => match d with [] => false | _ => true end
  end.

(** Exception classes.  The first seven are the ones the statements of the
    module can raise; [ProtocolError] and [ExtractionError] are the classes
    the specification names, which no statement of the module raises. *)
Inductive exn :=
| AttributeError | IndexError | KeyError | TypeError | NameError
| ValueError | JSONDecodeError
| ProtocolError | ExtractionError.

Inductive result (A : Type) :=
| Ok (a : A)
| Raise (e : exn).
Arguments Ok {A} a.
Arguments Raise {A} e.

Definition exn_eqb (a b : exn) : bool :=
  match a, b with
  | AttributeError, AttributeError | IndexError, IndexError
  | KeyError, KeyError | TypeError, TypeError | NameError, NameError
  | ValueError, ValueError | JSONDecodeError, JSONDecodeError
  | ProtocolError, ProtocolError | ExtractionError, ExtractionError => true
  | _, _ => false
  end.

(** Lookup in a dict or an attribute table. *)
Fixpoint assoc {V : Type} (k : string) (d : list (string * V)) : option V :=
  match d with
  | [] => None
  | (k', v) :: d' => if String.eqb k k' then Some v else assoc k d'
  end.

(** [l[0]] and [l[-1]] *)
Definition index_first {A} (l : list A) : result A :=
  match l with
  | [] => Raise IndexError
  | x :: _ => Ok x
  end.

Fixpoint index_last {A} (l : list A) : result A :=
  match l with
  | [] => Raise IndexError
  | [x] => Ok x
  | _ :: l' => index_last l'
  end.

(** The options argument of [search]: a plain [dict], or an object with
    attributes such as [argparse.Namespace]. *)
Inductive options :=
| PlainDict (items : list (string * pyval))
| Namespace (attrs : list (string * pyval)).

(** [opts.<name>]: a dict has methods but no attribute [debug] or [extra],
    whatever its keys are. *)
Definition getattr (opts : options) (name : string) : result pyval :=
  match opts with
  | PlainDict _ => Raise AttributeError
  | Namespace attrs =>
      match assoc name attrs with
      | Some v => Ok v
      | None => Raise AttributeError
      end
  end.

(** ** Config *)

Module Config.
Definition api_url : string := "https://pypi.org/search/".
Definition page_size : nat := 2.
Definition sort_by : string := "name".
Definition date_format : string := "%d-%-m-%Y".
(** [link_defualt_format.format(package=p)] for a package named [name] *)
Definition link_defualt_format (name : string) : string :=
  "https://pypi.org/project/" ++ name.
End Config.

(** ** HTTP messages *)

Record HTTPBasicAuth := { username : option string; password : option string }.

Inductive request :=
| GET (url : string) (params : list (string * pyval))
      (headers : list (string * string)) (auth : option HTTPBasicAuth)
| POST (url : string) (json : pyval).

(** A response: [r.status_code], [r.text] and the outcome of [r.json()]
    ([None] when the body does not parse). *)
Record response := { status_code : Z; text : string; json_body : option pyval }.

(** ** The collaborators

    The libraries the module calls, and the remote side.  [server] answers
    a request given the requests the session has sent before it; failures
    of the transport itself are left out, every request gets a response. *)
Class Collaborators := {
  (** [bs4]: a parsed document or one of its elements *)
  tag : Type;
  BeautifulSoup : string -> tag;
  select : tag -> string -> list tag;
  tag_find : tag -> string -> option tag;
  tag_text : tag -> string;
  tag_attrs : tag -> list (string * string);
  (** [findall] of the script-URL pattern: a slash, one group of any
      characters, then /script.js *)
  findall_script : string -> list string;
  (** [findall] of the pattern of the [init] call with the challenge: the
      groups are base, hash, hmac, expires and token *)
  findall_pow : string -> list (string * string * string * string * string);
  (** [hashlib.sha256(s.encode()).hexdigest()] *)
  sha256_hexdigest : string -> string;
  urljoin : string -> option string -> string;
  (** [datetime.strptime]; [None] stands for its [ValueError] *)
  datetime : Type;
  strptime : string -> string -> option datetime;
  getenv : string -> option string;
  server : list request -> request -> response
}.

Section Program.
Context {C : Collaborators}.

(** [t.select_one(css)]: the first selected element, or [None]. *)
Definition select_one (t : tag) (css : string) : option tag :=
  hd_error (select t css).

(** ** Package *)

Record Package := {
  name : string;
  version : string;
  released : string;
  description : string;
  link : string;
  released_date : datetime;
  stars : pyval;
  forks : pyval;
  watchers : pyval;
  github_link : string;
  info_set : bool
}.

(** The info dict of [get_repo_info]. *)
Record RepoInfo := {
  info_stars : pyval;
  info_forks : pyval;
  info_watchers : pyval;
  info_set_flag : bool;
  info_github_link : string
}.

(** The generated [__init__] followed by [__post_init__]; [link or default]
    takes the default for [None] and for the empty string. *)
Definition Package_new (name version released description : string)
           (link : option string) : result Package :=
  let link' :=
    match link with
    | Some l => if String.eqb l "" then Config.link_defualt_format name else l
    | None => Config.link_defualt_format name
    end in
  match strptime released "%Y-%m-%dT%H:%M:%S%z" with
  | None => Raise ValueError
  | Some d =>
      Ok {| name := name; version := version; released := released;
            description := description; link := link'; released_date := d;
            stars := PInt 0; forks := PInt 0; watchers := PInt 0;
            github_link := ""; info_set := false |}
  end.

(** The enrichment fields as [__post_init__] leaves them. *)
Definition enrichment_default (p : Package) : Prop :=
  stars p = PInt 0 /\ forks p = PInt 0 /\ watchers p = PInt 0
  /\ github_link p = "" /\ info_set p = false.

(** The enrichment fields as [set_gh_info] leaves them for [info]. *)
Definition enriched_with (info : RepoInfo) (p : Package) : Prop :=
  stars p = info_stars info /\ forks p = info_forks info
  /\ watchers p = info_watchers info
  /\ github_link p = info_github_link info /\ info_set p = true.

Definition set_gh_info (p : Package) (info : RepoInfo) : Package :=
  {| name := name p; version := version p; released := released p;
     description := description p; link := link p;
     released_date := released_date p;
     stars := info_stars info;
     forks := info_forks info;
     watchers := info_watchers info;
     github_link := info_github_link info;
     info_set := true |}.

(** ** The proof-of-work search (lines 97-107 of the module) *)

Definition characters : list ascii :=
  list_ascii_of_string
    "abcdefghijklmnopqrstuvwxyzABCDEFGHIJKLMNOPQRSTUVWXYZ0123456789".

Definition suffix (c1 c2 : ascii) : string := String c1 (String c2 "").

(** The inner [for c2]: leaves [answer] as it is unless a digest matches,
    and stops at the first match. *)
Fixpoint inner_loop (base hash : string) (c1 : ascii) (cs : list ascii)
         (answer : string) : string :=
  match cs with
  | [] => answer
  | c2 :: cs' =>
      let c := (base ++ String c1 "") ++ String c2 "" in
      if String.eqb (sha256_hexdigest c) hash then suffix c1 c2
      else inner_loop base hash c1 cs' answer
  end.

(** The outer [for c1], with its [if answer: break]. *)
Fixpoint outer_loop (base hash : string) (cs : list ascii)
         (answer : string) : string :=
  match cs with
  | [] => answer
  | c1 :: cs' =>
      let answer' := inner_loop base hash c1 characters answer in
      if truthy (PStr answer') then answer'
      else outer_loop base hash cs' answer'
  end.

Definition solve (base hash : string) : string :=
  outer_loop base hash characters "".

(** The order in which the two loops visit the suffixes: the first
    character varies slowest. *)
Definition keyspace : list (ascii * ascii) :=
  flat_map (fun c1 => map (pair c1) characters) characters.

(** The string that is hashed for a pair, and the test of the loop. *)
Definition candidate (base : string) (p : ascii * ascii) : string :=
  (base ++ String (fst p) "") ++ String (snd p) "".

Definition is_answer (base hash : string) (p : ascii * ascii) : bool :=
  String.eqb (sha256_hexdigest (candidate base p)) hash.

(** ** The session and the module-level [DEBUG] flag

    A computation reads and extends the list of requests the session has
    sent, may set [DEBUG], and returns a value or raises. *)

Record state := { DEBUG : bool; sent : list request }.

Definition M (A : Type) : Type := state -> result A * state.

Definition ret {A} (a : A) : M A := fun st => (Ok a, st).

Definition bind {A B} (m : M A) (k : A -> M B) : M B :=
  fun st =>
    match m st with
    | (Ok a, st') => k a st'
    | (Raise e, st') => (Raise e, st')
    end.

Definition lift {A} (r : result A) : M A := fun st => (r, st).

Definition raise {A} (e : exn) : M A := lift (Raise e).

Notation "x <- m ;; k" := (bind m (fun x => k))
  (at level 61, m at next level, right associativity).
Notation "' pat <- m ;; k" := (bind m (fun x => match x with pat => k end))
  (at level 61, pat pattern, m at next level, right associativity).

(** [try: body except <classes>: handler] *)
Definition try_except {A} (body : M A) (caught : exn -> bool)
           (handler : exn -> M A) : M A :=
  fun st =>
    match body st with
    | (Ok a, st') => (Ok a, st')
    | (Raise e, st') => if caught e then handler e st' else (Raise e, st')
    end.

Definition send (rq : request) : M response :=
  fun st => (Ok (server (sent st) rq),
             {| DEBUG := DEBUG st; sent := sent st ++ [rq] |}).

Definition session_get (url : string) (params : list (string * pyval))
           (headers : list (string * string)) (auth : option HTTPBasicAuth)
  : M response := send (GET url params headers auth).

Definition session_post (url : string) (json : pyval) : M response :=
  send (POST url json).

Definition set_DEBUG : M unit :=
  fun st => (Ok tt, {| DEBUG := true; sent := sent st |}).

Definition get_DEBUG : M bool := fun st => (Ok (DEBUG st), st).

(** Attribute and item access on what may be [None]. *)
Definition text_of (t : option tag) : result string :=
  match t with
  | Some e => Ok (tag_text e)
  | None => Raise AttributeError
  end.

Definition attrs_of (t : option tag) : result (list (string * string)) :=
  match t with
  | Some e => Ok (tag_attrs e)
  | None => Raise AttributeError
  end.

(** [d[key]] on an attribute dict *)
Definition getitem (d : list (string * string)) (key : string) : result string :=
  match assoc key d with
  | Some v => Ok v
  | None => Raise KeyError
  end.

(** ** get_links *)

Record links := { github : string; homepage : string }.

Definition csspath : string :=
  ".vertical-tabs__tabs > div:nth-child(3) > ul:nth-child(4) > li:nth-child(1) > a:nth-child(1)".
Definition csspath_alt : string :=
  ".vertical-tabs__tabs > div:nth-child(2) > ul:nth-child(2) > li:nth-child(2) > a:nth-child(1)".

(** The body of the [try] of [get_links]. *)
Definition resolve_links (soup : tag) : result (option links) :=
  match attrs_of (select_one soup csspath) with
  | Raise e => Raise e
  | Ok a =>
      match getitem a "href" with
      | Raise e => Raise e
      | Ok homepage0 =>
          let after_issues :=
            if PyStr.contains "issues" homepage0
            then match attrs_of (select_one soup csspath_alt) with
                 | Raise e => Raise e
                 | Ok a' => getitem a' "href"
                 end
            else Ok homepage0 in
          match after_issues with
          | Raise e => Raise e
          | Ok homepage =>
              if PyStr.contains "github" homepage
              then Ok (Some {| github := PyStr.replace "/tags" "" homepage;
                               homepage := homepage |})
              else Ok None
          end
      end
  end.

Definition get_links (pkg_url : string) : M (option links) :=
  r <- session_get pkg_url [] [] None ;;
  let soup := BeautifulSoup (text r) in
  try_except (lift (resolve_links soup))
             (fun e => exn_eqb e AttributeError)
             (fun _ => ret None).

(** ** get_repo_info *)

Definition default_info : RepoInfo :=
  {| info_stars := PInt 0; info_forks := PInt 0; info_watchers := PInt 0;
     info_set_flag := false; info_github_link := "" |}.

(** [d.get(key, default)] *)
Definition dict_get (d : list (string * pyval)) (key : string) (default : pyval)
  : pyval :=
  match assoc key d with
  | Some v => v
  | None => default
  end.

(** [r.json().get(key, 0)]: the body has to parse, and only a dict has a
    [get] method. *)
Definition json_get (r : response) (key : string) : result pyval :=
  match json_body r with
  | None => Raise JSONDecodeError
  | Some (PDict d) => Ok (dict_get d key (PInt 0))
  | Some _ => Raise AttributeError
  end.

(** The body of the [try] on status 200.  The assignments update [info] one
    after the other; an exception leaves [info] as the earlier assignments
    made it. *)
Definition fill_info (r : response) (repo : string) (info : RepoInfo)
  : RepoInfo * option exn :=
  match json_get r "stargazers_count" with
  | Raise e => (info, Some e)
  | Ok v1 =>
      let info1 := {| info_stars := v1; info_forks := info_forks info;
                      info_watchers := info_watchers info;
                      info_set_flag := info_set_flag info;
                      info_github_link := info_github_link info |} in
      match json_get r "forks_count" with
      | Raise e => (info1, Some e)
      | Ok v2 =>
          let info2 := {| info_stars := v1; info_forks := v2;
                          info_watchers := info_watchers info;
                          info_set_flag := info_set_flag info;
                          info_github_link := info_github_link info |} in
          match json_get r "watchers_count" with
          | Raise e => (info2, Some e)
          | Ok v3 =>
              ({| info_stars := v1; info_forks := v2; info_watchers := v3;
                  info_set_flag := true; info_github_link := repo |}, None)
          end
      end
  end.

(** The classes of [except (KeyError, TypeError, AttributeError)]. *)
Definition caught_by_repo_info (e : exn) : bool :=
  match e with
  | KeyError | TypeError | AttributeError => true
  | _ => false
  end.

(** [get_repo_info]: [None] is the result of running off the end of the
    function. *)
Definition get_repo_info (repo : string) (auth : option HTTPBasicAuth)
  : M (option RepoInfo) :=
  let info := default_info in
  match nth_error (PyStr.split_sep "github.com/" repo) 1 with
  | None => ret (Some info)
  | Some after =>
      let reponame := PyStr.rstrip_char "/" after in
      let apiurl := "https://api.github.com/repos/" ++ reponame in
      r <- session_get apiurl [] [] auth ;;
      if status_code r =? 401 then ret (Some info)
      else if status_code r =? 404 then ret (Some info)
      else if status_code r =? 403 then ret (Some info)
      else if status_code r =? 200 then
        match fill_info r repo info with
        | (info', None) => ret (Some info')
        | (info', Some e) =>
            if caught_by_repo_info e
            then (* the handler formats [r.json()] into its log line *)
                 match json_body r with
                 | None => raise JSONDecodeError
                 | Some _ => ret (Some info')
                 end
            else raise e
        end
      else ret None
  end.

(** Names for the parts of a lookup: the info dict of a successful one,
    and the request sent for the part of the link after the host. *)
Definition info_of_body (d : list (string * pyval)) (repo : string) : RepoInfo :=
  {| info_stars := dict_get d "stargazers_count" (PInt 0);
     info_forks := dict_get d "forks_count" (PInt 0);
     info_watchers := dict_get d "watchers_count" (PInt 0);
     info_set_flag := true;
     info_github_link := repo |}.

Definition api_request (after : string) (auth : option HTTPBasicAuth) : request :=
  GET ("https://api.github.com/repos/" ++ PyStr.rstrip_char "/" after) [] [] auth.

(** ** get_github_info *)

Definition get_github_info (repolink : string) (authparam : option HTTPBasicAuth)
  : M (option RepoInfo) :=
  gh_link <- get_links repolink ;;
  match gh_link with
  | Some l => get_repo_info (github l) authparam
  | None => ret None
  end.

(** ** search *)

Definition dquote : ascii := ascii_of_nat 34.
Definition quoted (s : string) : string := String dquote (s ++ String dquote "").

(** The selectors of the form [tag[class*=<quoted marker>]]. *)
Definition class_contains (tagname marker : string) : string :=
  tagname ++ "[class*=" ++ quoted marker ++ "]".

Definition sel_snippet : string := class_contains "a" "package-snippet".
Definition sel_name : string := class_contains "span" "package-snippet__name".
Definition sel_created : string := class_contains "span" "package-snippet__created".
Definition sel_description : string :=
  class_contains "p" "package-snippet__description".
Definition sel_version : string := "h1.package-header__name".

Definition headers : list (string * string) :=
  [("User-Agent",
    "Mozilla/5.0 (Windows NT 10.0; Win64; x64; rv:133.0) Gecko/20100101 Firefox/133.0")].

(** The JSON body posted with the answer. *)
Definition pow_data (token base answer hmac expires : string) : pyval :=
  PDict [("token", PStr token);
         ("data", PList [PDict [("ty", PStr "pow"); ("base", PStr base);
                                ("answer", PStr answer); ("hmac", PStr hmac);
                                ("expires", PStr expires)]])].

(** [for page in range(1, config.page_size + 1)] *)
Fixpoint fetch_pages (query : string) (pages : list nat) (snippets : list tag)
  : M (list tag) :=
  match pages with
  | [] => ret snippets
  | page :: rest =>
      r <- session_get Config.api_url
             [("q", PStr query); ("page", PInt (Z.of_nat page))] [] None ;;
      let soup := BeautifulSoup (text r) in
      fetch_pages query rest (snippets ++ select soup sel_snippet)
  end.

(** Lines 73-129: everything before the loop over the snippets. *)
Definition search_setup (query : string) (opts : options)
  : M (list tag * option HTTPBasicAuth) :=
  debug <- lift (getattr opts "debug") ;;
  _ <- (if truthy debug then set_DEBUG else ret tt) ;;
  r <- session_get Config.api_url [("q", PStr query)] headers None ;;
  path <- lift (index_first (findall_script (text r))) ;;
  let script_url := "https://pypi.org/" ++ path ++ "/script.js" in
  r <- session_get script_url [] [] None ;;
  ' (base, hash, hmac, expires, token) <-
      lift (index_first (findall_pow (text r))) ;;
  let answer := solve base hash in
  let back_url := "https://pypi.org/" ++ path ++ "/fst-post-back" in
  _ <- session_post back_url (pow_data token base answer hmac expires) ;;
  snippets <- fetch_pages query (seq 1 Config.page_size) [] ;;
  extra <- lift (getattr opts "extra") ;;
  let authparam :=
    if truthy extra
    then Some {| username := getenv "GITHUB_USERNAME";
                 password := getenv "GITHUBAPITOKEN" |}
    else None in
  ret (snippets, authparam).

(** Lines 149-150: the version comes from the detail page. *)
Definition extract_version (package_page : tag) : result string :=
  match select_one package_page sel_version with
  | Some version_element => index_last (PyStr.split (tag_text version_element))
  | None => Ok "Unknown"
  end.

(** [snippet.select_one(created).find(time)[datetime]] *)
Definition created_datetime (snippet : tag) : result string :=
  match select_one snippet sel_created with
  | None => Raise AttributeError
  | Some created =>
      match tag_find created "time" with
      | None => Raise TypeError
      | Some t => getitem (tag_attrs t) "datetime"
      end
  end.

(** Lines 142-160: the body of the loop, up to the [yield]. *)
Definition search_body (opts : options) (authparam : option HTTPBasicAuth)
           (snippet : tag) : M Package :=
  let link := urljoin Config.api_url (assoc "href" (tag_attrs snippet)) in
  name_text <- lift (text_of (select_one snippet sel_name)) ;;
  let package := PyStr.collapse_ws (PyStr.strip name_text) in
  response <- session_get link [] [] None ;;
  let package_page := BeautifulSoup (text response) in
  version <- lift (extract_version package_page) ;;
  dt <- lift (created_datetime snippet) ;;
  let released := PyStr.collapse_ws dt in
  desc_text <- lift (text_of (select_one snippet sel_description)) ;;
  let description := PyStr.collapse_ws (PyStr.strip desc_text) in
  pack <- lift (Package_new package version released description (Some link)) ;;
  extra <- lift (getattr opts "extra") ;;
  if truthy extra then
    info <- get_github_info link authparam ;;
    match info with
    | Some i =>
        let pack' := set_gh_info pack i in
        debug <- get_DEBUG ;;
        (* the debug line formats a name [s] that is bound nowhere *)
        if debug then raise NameError else ret pack'
    | None => ret pack
    end
  else ret pack.

(** Names for what the loop body does first: the address of the detail
    page of a snippet, the page as parsed in state [st], and the state once
    it has been fetched. *)
Definition detail_url (snippet : tag) : string :=
  urljoin Config.api_url (assoc "href" (tag_attrs snippet)).

Definition detail_page (snippet : tag) (st : state) : tag :=
  BeautifulSoup (text (server (sent st) (GET (detail_url snippet) [] [] None))).

Definition after_detail (snippet : tag) (st : state) : state :=
  {| DEBUG := DEBUG st;
     sent := (sent st ++ [GET (detail_url snippet) [] [] None])%list |}.

(** What a consumer sees when it drains the generator: the packages
    yielded, in order, then the end of the iteration ([None]) or an
    exception; [final] is the state at that point. *)
Record run := { yielded : list Package; raised : option exn; final : state }.

Fixpoint search_loop (opts : options) (authparam : option HTTPBasicAuth)
         (snippets : list tag) (st : state) : run :=
  match snippets with
  | [] => {| yielded := []; raised := None; final := st |}
  | snippet :: rest =>
      match search_body opts authparam snippet st with
      | (Ok pack, st') =>
          let r := search_loop opts authparam rest st' in
          {| yielded := pack :: yielded r; raised := raised r;
             final := final r |}
      | (Raise e, st') => {| yielded := []; raised := Some e; final := st' |}
      end
  end.

(** [search(query, opts)], drained.  [debug0] is the value of the global
    [DEBUG] when the generator starts; the session is a fresh one. *)
Definition search (query : string) (opts : options) (debug0 : bool) : run :=
  match search_setup query opts {| DEBUG := debug0; sent := [] |} with
  | (Ok (snippets, authparam), st) => search_loop opts authparam snippets st
  | (Raise e, st) => {| yielded := []; raised := Some e; final := st |}
  end.

(** The snippets the loop of [search] runs over: those of the result pages,
    in page order; none when the set-up fails. *)
Definition collected_snippets (query : string) (opts : options) (debug0 : bool)
  : list tag :=
  match search_setup query opts {| DEBUG := debug0; sent := [] |} with
  | (Ok (snippets, _), _) => snippets
  | (Raise _, _) => []
  end.

End Program.

(** ** A stubbed index, for running the module on concrete pages *)

Module Stub.

(** A document is the table of what the selectors and [find] return on it. *)
#[warnings="-register-all"]
Inductive doc :=
| Doc (dtext : string) (dattrs : list (string * string))
      (dselect : list (string * list doc)) (dfind : list (string * doc)).

Definition doc_text (d : doc) : string := let (t, _, _, _) := d in t.
Definition doc_attrs (d : doc) : list (string * string) := let (_, a, _, _) := d in a.
Definition doc_select (d : doc) (css : string) : list doc :=
  let (_, _, s, _) := d in
  match assoc css s with Some l => l | None => [] end.
Definition doc_find (d : doc) (tagname : string) : option doc :=
  let (_, _, _, f) := d in assoc tagname f.

Definition leaf (t : string) (a : list (string * string)) : doc := Doc t a [] [].
Definition empty_doc : doc := leaf "" [].

(** What varies between the scenarios. *)
Record scenario := {
  search_page : string;            (* body of the first search response *)
  script_page : string;            (* body of the script *)
  header_text : option string;     (* text of the version header, if any *)
  homepage_href : option string;   (* link in the primary slot, if any *)
  alternate_href : option string;  (* link in the alternate slot, if any *)
  api_response : response          (* answer of the code-hosting API *)
}.

Definition snippet_foo : doc :=
  Doc "" [("href", "/project/foo/")]
      [(sel_name, [leaf "  foo  " []]);
       (sel_created,
        [Doc "" [] [] [("time", leaf "" [("datetime", "2023-05-01T00:00:00+0000")])]]);
       (sel_description, [leaf "a   small package " []])]
      [].

Definition slot (css : string) (href : option string) : list (string * list doc) :=
  match href with
  | Some h => [(css, [leaf "" [("href", h)]])]
  | None => []
  end.

Definition detail_doc (sc : scenario) : doc :=
  Doc "" []
      ((match header_text sc with
        | Some t => [(sel_version, [leaf t []])]
        | None => []
        end) ++ slot csspath (homepage_href sc)
             ++ slot csspath_alt (alternate_href sc))
      [].

Definition parse (sc : scenario) (body : string) : doc :=
  if String.eqb body "results 1" then Doc "" [] [(sel_snippet, [snippet_foo])] []
  else if String.eqb body "detail foo" then detail_doc sc
  else empty_doc.

Definition plain (body : string) : response :=
  {| status_code := 200; text := body; json_body := None |}.

Definition answer_of (sc : scenario) (history : list request) (rq : request)
  : response :=
  match rq with
  | POST _ _ => plain ""
  | GET url params _ _ =>
      if String.eqb url Config.api_url then
        match assoc "page" params with
        | None => plain (search_page sc)
        | Some (PInt 1) => plain "results 1"
        | Some _ => plain "results 2"
        end
      else if String.eqb url "https://pypi.org/ch4ll/script.js"
      then plain (script_page sc)
      else if String.eqb url "https://pypi.org/project/foo/" then plain "detail foo"
      else if String.eqb url "https://api.github.com/repos/owner/foo"
      then api_response sc
      else {| status_code := 404; text := ""; json_body := None |}
  end.

Definition challenge_html : string := "<script src=/ch4ll/script.js></script>".
Definition challenge_js : string := "init(pow abc)".

(** The digest of [abcab]. *)
Definition target : string :=
  "38b2f9343de308bc2bd7be4ddda3e8b44e55f0c7848996ea10694b758cbb4967".

Definition world (sc : scenario) : Collaborators :=
  {| tag := doc;
     BeautifulSoup := parse sc;
     select := doc_select;
     tag_find := doc_find;
     tag_text := doc_text;
     tag_attrs := doc_attrs;
     findall_script := fun body =>
       if String.eqb body challenge_html then ["ch4ll"] else [];
     findall_pow := fun body =>
       if String.eqb body challenge_js
       then [("abc", target, "mac", "soon", "tok")] else [];
     sha256_hexdigest := SHA256.hexdigest;
     urljoin := fun base href =>
       match href with Some h => "https://pypi.org" ++ h | None => base end;
     datetime := string;
     strptime := fun s _ =>
       if (String.length s =? 24)%nat then Some s else None;
     getenv := fun _ => None;
     server := answer_of sc |}.

Definition github_json : pyval :=
  PDict [("stargazers_count", PInt 12); ("forks_count", PInt 3)].

Definition found_json : response :=
  {| status_code := 200; text := "{...}"; json_body := Some github_json |}.

Definition status (code : Z) : response :=
  {| status_code := code; text := ""; json_body := None |}.

(** The usual scenario: the challenge is served, the detail page has a
    version header and a repository link. *)
Definition usual (api : response) : scenario :=
  {| search_page := challenge_html; script_page := challenge_js;
     header_text := Some "foo 1.0";
     homepage_href := Some "https://github.com/owner/foo/tags";
     alternate_href := None;
     api_response := api |}.

Definition flags (debug extra : bool) : options :=
  Namespace [("debug", PBool debug); ("extra", PBool extra)].

(** The package of [snippet_foo] when the version header reads [foo 1.0]. *)
Definition foo_package (sc : scenario) (s f w : pyval) (gh : string)
           (looked_up : bool) : @Package (world sc) :=
  @Build_Package (world sc)
    "foo" "1.0" "2023-05-01T00:00:00+0000" "a small package"
    "https://pypi.org/project/foo/" "2023-05-01T00:00:00+0000"
    s f w gh looked_up.

(** A search page without the script reference. *)
Definition no_challenge : scenario :=
  {| search_page := "<html>results</html>";
     script_page := challenge_js;
     header_text := Some "foo 1.0";
     homepage_href := None;
     alternate_href := None;
     api_response := status 404 |}.

(** A repository link with [/tags] inside a longer segment. *)
Definition tagsoup : scenario :=
  {| search_page := challenge_html;
     script_page := challenge_js;
     header_text := Some "foo 1.0";
     homepage_href := Some "https://github.com/owner/tagsoup";
     alternate_href := None;
     api_response := status 404 |}.

(** An issue tracker in the primary slot, the repository in the other. *)
Definition issues_first : scenario :=
  {| search_page := challenge_html;
     script_page := challenge_js;
     header_text := Some "foo 1.0";
     homepage_href := Some "https://github.com/owner/foo/issues";
     alternate_href := Some "https://github.com/owner/foo/tags";
     api_response := found_json |}.

(** A version header that holds only blanks. *)
Definition blank_header : scenario :=
  {| search_page := challenge_html;
     script_page := challenge_js;
     header_text := Some "   ";
     homepage_href := None;
     alternate_href := None;
     api_response := status 404 |}.

End Stub.

(** ** Vocabulary for the properties of the whole run *)

Section Vocabulary.
Context {C : Collaborators}.

(** [st'] comes after [st]: the flag is the same and the session has sent
    the same requests followed by further ones, all of them in [P]. *)
Definition follows (P : request -> Prop) (st st' : state) : Prop :=
  DEBUG st' = DEBUG st
  /\ exists more, sent st' = (sent st ++ more)%list /\ Forall P more.

(** Every run of [m], whether it returns or raises, ends in a state that
    follows the one it started in. *)
Definition respects (P : request -> Prop) {A} (m : M A) : Prop :=
  forall st r st', m st = (r, st') -> follows P st st'.

(** What a request may carry when the credentials at hand are [authparam]:
    credentials only on a request to the repository API, and then those at
    hand. *)
Definition carries (authparam : option HTTPBasicAuth) (rq : request) : Prop :=
  match rq with
  | GET url _ _ (Some a) =>
      String.prefix "https://api.github.com/repos/" url = true
      /\ authparam = Some a
  | _ => True
  end.

(** No request at all. *)
Definition nothing (rq : request) : Prop := False.

(** The credentials [search] builds from the environment when [opts.extra]
    is true. *)
Definition auth_of (opts : options) : option HTTPBasicAuth :=
  match getattr opts "extra" with
  | Ok e =>
      if truthy e
      then Some {| username := getenv "GITHUB_USERNAME";
                   password := getenv "GITHUBAPITOKEN" |}
      else None
  | Raise _ => None
  end.

(** The truth value of [opts.debug], false when the attribute is missing. *)
Definition debug_flag (opts : options) : bool :=
  match getattr opts "debug" with
  | Ok d => truthy d
  | Raise _ => false
  end.

(** The requests of the set-up for a query and a challenge. *)
Definition search_request (query : string) : request :=
  GET Config.api_url [("q", PStr query)] headers None.

Definition script_request (path : string) : request :=
  GET ("https://pypi.org/" ++ path ++ "/script.js") [] [] None.

Definition answer_request (path base hash hmac expires token : string) : request :=
  POST ("https://pypi.org/" ++ path ++ "/fst-post-back")
       (pow_data token base (solve base hash) hmac expires).

Definition page_request (query : string) (page : nat) : request :=
  GET Config.api_url [("q", PStr query); ("page", PInt (Z.of_nat page))] [] None.

Definition detail_request (snippet : tag) : request :=
  GET (detail_url snippet) [] [] None.

(** The states of a run.  [setup_state] is the state in which the set-up
    ends; [state_at ... i] is the state in which the loop, started in [st],
    enters its body for snippet number [i] (counting from 0): the state the
    body of the snippet before left; [body_state] is that state in the run
    of [search]. *)
Definition setup_state (query : string) (opts : options) (debug0 : bool) : state :=
  snd (search_setup query opts {| DEBUG := debug0; sent := [] |}).

Fixpoint state_at (opts : options) (auth : option HTTPBasicAuth)
         (snippets : list tag) (st : state) (i : nat) {struct i} : state :=
  match i with
  | O => st
  | S j =>
      match snippets with
      | [] => st
      | s :: rest =>
          state_at opts auth rest (snd (search_body opts auth s st)) j
      end
  end.

Definition body_state (query : string) (opts : options) (debug0 : bool)
           (i : nat) : state :=
  state_at opts (auth_of opts) (collected_snippets query opts debug0)
           (setup_state query opts debug0) i.

(** A string without whitespace. *)
Definition no_space (s : string) : bool :=
  forallb (fun c => negb (PyStr.isspace c)) (list_ascii_of_string s).

(** A string whose only whitespace is single spaces between other
    characters; [after_space] tells that a space came just before. *)
Fixpoint single_spaced (after_space : bool) (s : string) : bool :=
  match s with
  | EmptyString => true
  | String c s' =>
      if Ascii.eqb c " "
      then negb after_space && single_spaced true s'
      else negb (PyStr.isspace c) && single_spaced false s'
  end.

(** The last character of a string, if any. *)
Fixpoint last_char (s : string) : option ascii :=
  match s with
  | EmptyString => None
  | String c EmptyString => Some c
  | String _ s' => last_char s'
  end.

(** A string that does not begin, or does not end, with whitespace. *)
Definition head_clean (t : string) : Prop :=
  match t with
  | EmptyString => True
  | String c _ => PyStr.isspace c = false
  end.

Definition tail_clean (t : string) : Prop :=
  match last_char t with
  | Some c => PyStr.isspace c = false
  | None => True
  end.

(** No whitespace at either end, and single spaces inside. *)
Definition normalised (s : string) : Prop :=
  single_spaced true s = true
  /\ match last_char s with
     | Some c => PyStr.isspace c = false
     | None => True
     end.

End Vocabulary.

(** * Properties *)

(** The digest agrees with the published test vector. *)
Example sha256_abc :
  SHA256.hexdigest "abc"
  = "ba7816bf8f01cfea414140de5dae2223b00361a396177a9cb410ff61f20015ad".
Proof. vm_compute. reflexivity. Qed.

(** The string primitives on the values the module meets. *)
Example split_version : PyStr.split "  requests   2.31.0 " = ["requests"; "2.31.0"].
Proof. reflexivity. Qed.

Example split_blank : PyStr.split "   " = [].
Proof. reflexivity. Qed.

Example replace_tags :
  PyStr.replace "/tags" "" "https://github.com/psf/requests/tags"
  = "https://github.com/psf/requests".
Proof. reflexivity. Qed.

Example split_host :
  PyStr.split_sep "github.com/" "https://github.com/psf/requests/"
  = ["https://"; "psf/requests/"]
  /\ PyStr.rstrip_char "/" "psf/requests/" = "psf/requests"
  /\ PyStr.split_sep "github.com/" "https://gitlab.com/x" = ["https://gitlab.com/x"].
Proof. repeat split. Qed.

Example collapse_and_strip :
  PyStr.collapse_ws (PyStr.strip "  a   small package ") = "a small package".
Proof. reflexivity. Qed.

(** The digest is never the empty string. *)
Lemma hexdigest_nonempty (s : string) : SHA256.hexdigest s <> "".
Proof.
  unfold SHA256.hexdigest, SHA256.hex_of_regs.
  generalize (SHA256.digest_words (SHA256.utf8 s)); intro r.
  unfold SHA256.hex32 at 1. discriminate.
Qed.

(** ** The proof-of-work search *)

Section Solver.
Context {C : Collaborators}.

Lemma find_app_first {A} (f : A -> bool) (l1 l2 : list A) :
  find f (l1 ++ l2)
  = match find f l1 with Some x => Some x | None => find f l2 end.
Proof.
  induction l1 as [|a l1 IH]; simpl; [reflexivity|].
  destruct (f a); [reflexivity | exact IH].
Qed.

Lemma find_split_first {A} (f : A -> bool) (before after : list A) (x : A) :
  (forall y, In y before -> f y = false) -> f x = true ->
  find f (before ++ x :: after) = Some x.
Proof.
  intros Hb Hx. rewrite find_app_first.
  assert (find f before = None) as ->.
  { induction before as [|b before IH]; simpl; [reflexivity|].
    rewrite (Hb b (or_introl eq_refl)). apply IH.
    intros y Hy. apply Hb. right. exact Hy. }
  simpl. rewrite Hx. reflexivity.
Qed.

Lemma inner_loop_find (base hash : string) (c1 : ascii) (cs : list ascii)
      (answer : string) :
  inner_loop base hash c1 cs answer
  = match find (is_answer base hash) (map (pair c1) cs) with
    | Some p => suffix (fst p) (snd p)
    | None => answer
    end.
Proof.
  induction cs as [|c2 cs IH]; simpl; [reflexivity|].
  unfold is_answer at 1, candidate. simpl.
  destruct (String.eqb _ hash); [reflexivity | exact IH].
Qed.

Lemma outer_loop_find (base hash : string) (cs : list ascii) :
  outer_loop base hash cs ""
  = match find (is_answer base hash)
               (flat_map (fun c1 => map (pair c1) characters) cs) with
    | Some p => suffix (fst p) (snd p)
    | None => ""
    end.
Proof.
  induction cs as [|c1 cs IH]; [reflexivity|].
  cbn [outer_loop flat_map]. rewrite find_app_first, inner_loop_find.
  destruct (find (is_answer base hash) (map (pair c1) characters)) as [p|].
  - reflexivity.
  - exact IH.
Qed.

Lemma solve_find (base hash : string) :
  solve base hash
  = match find (is_answer base hash) keyspace with
    | Some p => suffix (fst p) (snd p)
    | None => ""
    end.
Proof. apply outer_loop_find. Qed.

(** The first character varies slowest: aa, ab, ..., a9, ba, ..., 99. *)
Example keyspace_order :
  firstn 2 keyspace = [("a", "a"); ("a", "b")]%char
  /\ nth_error keyspace 61 = Some ("a", "9")%char
  /\ nth_error keyspace 62 = Some ("b", "a")%char
  /\ nth_error keyspace (26 * 62) = Some ("A", "a")%char
  /\ nth_error keyspace (62 * 62 - 1) = Some ("9", "9")%char.
Proof. repeat split. Qed.

Lemma keyspace_size : List.length keyspace = (62 * 62)%nat.
Proof. reflexivity. Qed.

Lemma in_keyspace (c1 c2 : ascii) :
  In (c1, c2) keyspace <-> In c1 characters /\ In c2 characters.
Proof.
  unfold keyspace. rewrite in_flat_map. split.
  - intros [x [Hx Hin]]. apply in_map_iff in Hin as [y [Heq Hy]].
    inversion Heq; subst. split; assumption.
  - intros [H1 H2]. exists c1. split; [exact H1|].
    apply in_map_iff. exists c2. split; [reflexivity | exact H2].
Qed.

End Solver.

(** C1 -- The alphabet is a-z, then A-Z, then 0-9, and the solver visits
    the two-character suffixes in the order of [keyspace]: first character
    in the outer loop, second in the inner one.  It returns the two
    characters [c1], [c2] of the first pair whose digest of
    [base + c1 + c2] equals the target, the empty string when there is
    none.  In particular, when the target is the digest of
    [base + c1 + c2] and no pair visited before [(c1, c2)] has that
    digest, the answer is exactly the string of [c1] followed by [c2]. *)
Theorem pow_solver_first_match {C : Collaborators} (base hash : string) :
  characters = map ascii_of_nat (seq 97 26 ++ seq 65 26 ++ seq 48 10)%list
  /\ keyspace
     = flat_map (fun c1 => map (fun c2 => (c1, c2)) characters) characters
  /\ solve base hash
     = match List.find
               (fun p => String.eqb
                           (sha256_hexdigest
                              ((base ++ String (fst p) "") ++ String (snd p) ""))
                           hash)
               keyspace with
       | Some (c1, c2) => String c1 (String c2 EmptyString)
       | None => EmptyString
       end
  /\ forall before c1 c2 after,
      keyspace = (before ++ (c1, c2) :: after)%list ->
      sha256_hexdigest ((base ++ String c1 "") ++ String c2 "") = hash ->
      (forall c1' c2', In (c1', c2') before ->
         sha256_hexdigest ((base ++ String c1' "") ++ String c2' "") <> hash) ->
      solve base hash = String c1 (String c2 EmptyString).
Proof.
  split; [reflexivity|]. split; [reflexivity|]. split.
  - rewrite solve_find. unfold is_answer, candidate.
    destruct (List.find _ keyspace) as [[c1 c2]|]; reflexivity.
  - intros before c1 c2 after Hsplit Hhash Hbefore.
    rewrite solve_find, Hsplit.
    rewrite (find_split_first (is_answer base hash) before after (c1, c2)).
    + reflexivity.
    + intros [c1' c2'] Hp. unfold is_answer, candidate. simpl.
      apply String.eqb_neq. apply Hbefore, Hp.
    + unfold is_answer, candidate. simpl. apply String.eqb_eq. exact Hhash.
Qed.

Lemma pow_solver_first_match_witness :
  @solve (Stub.world (Stub.usual Stub.found_json)) "abc" Stub.target = "ab".
Proof.
  apply (proj2 (proj2 (proj2
           (@pow_solver_first_match (Stub.world (Stub.usual Stub.found_json))
              "abc" Stub.target)))
               [("a"%char, "a"%char)] "a"%char "b"%char (skipn 2 keyspace)).
  - reflexivity.
  - vm_compute. reflexivity.
  - intros c1' c2' [H | []]. inversion H; subst. vm_compute. discriminate.
Defined.

(** C5 -- When no suffix of the 62 * 62 keyspace has the target digest, the
    solver comes to the end of both loops and returns the empty string. *)
Theorem pow_solver_exhausted {C : Collaborators} (base hash : string) :
  (forall c1 c2, In c1 characters -> In c2 characters ->
     sha256_hexdigest ((base ++ String c1 "") ++ String c2 "") <> hash) ->
  solve base hash = ""
  /\ List.find (is_answer base hash) keyspace = None
  /\ List.length keyspace = (62 * 62)%nat.
Proof.
  intros Hnone.
  assert (List.find (is_answer base hash) keyspace = None) as Hfind.
  { destruct (List.find (is_answer base hash) keyspace) as [[c1 c2]|] eqn:E;
      [|reflexivity].
    apply find_some in E as [Hin Hans].
    apply in_keyspace in Hin as [H1 H2].
    unfold is_answer, candidate in Hans. simpl in Hans.
    apply String.eqb_eq in Hans. destruct (Hnone c1 c2 H1 H2 Hans). }
  split; [|split; [exact Hfind | apply keyspace_size]].
  rewrite solve_find, Hfind. reflexivity.
Qed.

Lemma pow_solver_exhausted_witness :
  @solve (Stub.world (Stub.usual Stub.found_json)) "abc" "" = "".
Proof.
  apply (@pow_solver_exhausted (Stub.world (Stub.usual Stub.found_json)) "abc" "").
  intros c1 c2 _ _. apply hexdigest_nonempty.
Defined.

(** ** Running the monad *)

Section Running.
Context {C : Collaborators}.

Lemma bind_ok_inv {A B} (m : M A) (k : A -> M B) (st st' : state) (b : B) :
  bind m k st = (Ok b, st') ->
  exists a st1, m st = (Ok a, st1) /\ k a st1 = (Ok b, st').
Proof.
  unfold bind. destruct (m st) as [[a|e] st1]; intros H.
  - exists a, st1. split; [reflexivity | exact H].
  - discriminate H.
Qed.

Lemma lift_ok_inv {A} (r : result A) (st st' : state) (a : A) :
  lift r st = (Ok a, st') -> r = Ok a /\ st' = st.
Proof. unfold lift. intros H. inversion H. split; reflexivity. Qed.

Lemma send_eq (rq : request) (st : state) :
  send rq st = (Ok (server (sent st) rq),
                {| DEBUG := DEBUG st; sent := (sent st ++ [rq])%list |}).
Proof. reflexivity. Qed.

End Running.

(** Splits a successful run of a sequence of binds into its steps. *)
Ltac step_ok H a st H1 := apply bind_ok_inv in H as (a & st & H1 & H).

(** ** The options argument *)

Section Options.
Context {C : Collaborators}.

Lemma getattr_ok_inv (opts : options) (attr : string) (v : pyval) :
  getattr opts attr = Ok v ->
  exists attrs, opts = Namespace attrs /\ assoc attr attrs = Some v.
Proof.
  destruct opts as [items|attrs]; simpl; [discriminate|].
  destruct (assoc attr attrs) as [w|] eqn:E; [|discriminate].
  intros H. inversion H; subst. exists attrs. split; [reflexivity | exact E].
Qed.

(** A set-up that completes has read both attributes. *)
Lemma search_setup_reads_flags (query : string) (opts : options)
      (st st' : state) (x : list tag * option HTTPBasicAuth) :
  search_setup query opts st = (Ok x, st') ->
  exists d e, getattr opts "debug" = Ok d /\ getattr opts "extra" = Ok e.
Proof.
  unfold search_setup. intros H.
  step_ok H d st1 Hd. apply lift_ok_inv in Hd as [Hd _].
  step_ok H u st2 H2. step_ok H r1 st3 H3. step_ok H path st4 H4.
  step_ok H r2 st5 H5. step_ok H pow st6 H6.
  destruct pow as [[[[base hash] hmac] expires] token].
  step_ok H r3 st7 H7. step_ok H snippets st8 H8. step_ok H e st9 He.
  apply lift_ok_inv in He as [He _].
  exists d, e. split; assumption.
Qed.

End Options.

(** C9 -- With a plain dict for [opts] (the default included) the first
    element access raises AttributeError before any request is sent; a
    search that ends normally or yields anything was given an object with
    both a [debug] and an [extra] attribute. *)
Theorem search_needs_option_object {C : Collaborators}
        (query : string) (opts : options) (debug0 : bool) :
  (forall items, opts = PlainDict items ->
     search query opts debug0
     = {| yielded := []; raised := Some AttributeError;
          final := {| DEBUG := debug0; sent := [] |} |})
  /\ (raised (search query opts debug0) = None
      \/ yielded (search query opts debug0) <> [] ->
      exists attrs d e,
        opts = Namespace attrs
        /\ assoc "debug" attrs = Some d /\ assoc "extra" attrs = Some e).
Proof.
  split.
  - intros items ->. reflexivity.
  - unfold search.
    destruct (search_setup query opts {| DEBUG := debug0; sent := [] |})
      as [[[snippets auth]|e] st] eqn:E.
    + intros _. apply search_setup_reads_flags in E as (d & e & Hd & He).
      apply getattr_ok_inv in Hd as (attrs & -> & Hd).
      apply getattr_ok_inv in He as (attrs' & Heq & He).
      inversion Heq; subst attrs'.
      exists attrs, d, e. repeat split; assumption.
    + simpl. intros [H | H]; [discriminate H | destruct (H eq_refl)].
Qed.

Lemma search_needs_option_object_witness :
  @search (Stub.world (Stub.usual Stub.found_json)) "foo" (PlainDict []) false
  = {| yielded := []; raised := Some AttributeError;
       final := {| DEBUG := false; sent := [] |} |}
  /\ exists attrs d e,
      Stub.flags false true = Namespace attrs
      /\ assoc "debug" attrs = Some d /\ assoc "extra" attrs = Some e.
Proof.
  split.
  - apply (proj1 (@search_needs_option_object
                    (Stub.world (Stub.usual Stub.found_json))
                    "foo" (PlainDict []) false) []).
    reflexivity.
  - apply (proj2 (@search_needs_option_object
                    (Stub.world (Stub.usual Stub.found_json))
                    "foo" (Stub.flags false true) false)).
    left. vm_compute. reflexivity.
Defined.

(** ** Package construction *)

(** C8 -- A Package built with [link=None] gets the default project URL of
    its name, and so does one built with the empty string as link; any
    non-empty link is kept unchanged. *)
Theorem package_default_link {C : Collaborators}
        (name version released description : string) (d : datetime) :
  strptime released "%Y-%m-%dT%H:%M:%S%z" = Some d ->
  (exists p, Package_new name version released description None = Ok p
             /\ link p = "https://pypi.org/project/" ++ name)
  /\ (exists p, Package_new name version released description (Some "") = Ok p
                /\ link p = "https://pypi.org/project/" ++ name)
  /\ (forall l, l <> "" ->
        exists p, Package_new name version released description (Some l) = Ok p
                  /\ link p = l).
Proof.
  intros Hd. unfold Package_new. rewrite Hd. repeat split.
  - eexists. split; reflexivity.
  - eexists. split; reflexivity.
  - intros l Hl. apply String.eqb_neq in Hl. rewrite Hl.
    eexists. split; reflexivity.
Qed.

Lemma package_default_link_witness :
  exists p,
    @Package_new (Stub.world (Stub.usual Stub.found_json))
                 "foo" "1.0" "2023-05-01T00:00:00+0000" "a package" None = Ok p
    /\ link p = "https://pypi.org/project/foo".
Proof.
  apply (proj1 (@package_default_link (Stub.world (Stub.usual Stub.found_json))
                  "foo" "1.0" "2023-05-01T00:00:00+0000" "a package"
                  "2023-05-01T00:00:00+0000" eq_refl)).
Defined.

(** The claim that every explicitly supplied link is kept fails on the
    empty string. *)
Lemma package_explicit_link_replaced :
  exists p,
    @Package_new (Stub.world (Stub.usual Stub.found_json))
                 "foo" "1.0" "2023-05-01T00:00:00+0000" "a package" (Some "")
    = Ok p
    /\ link p = "https://pypi.org/project/foo"
    /\ link p <> "".
Proof. eexists. split; [reflexivity|]. split; [reflexivity | discriminate]. Qed.

(** ** The version of a package *)

Section Version.
Context {C : Collaborators}.

Lemma split_ws_blank (s : string) :
  PyStr.all_space s = true -> PyStr.split_ws_from "" s = [].
Proof.
  unfold PyStr.all_space.
  induction s as [|c s IH]; simpl; [reflexivity|].
  intros H. apply andb_true_iff in H as [Hc Hs]. rewrite Hc. apply IH, Hs.
Qed.

Lemma index_last_snoc {A} (l : list A) (x : A) :
  index_last l = Ok x <-> exists front, l = (front ++ [x])%list.
Proof.
  split.
  - induction l as [|a l IH]; simpl; [discriminate|].
    destruct l as [|b l'].
    + intros H. inversion H; subst. exists []. reflexivity.
    + intros H. destruct (IH H) as [front Hf]. exists (a :: front).
      rewrite Hf. reflexivity.
  - intros [front ->]. induction front as [|a front IH]; [reflexivity|].
    simpl. destruct (front ++ [x])%list eqn:E; [|exact IH].
    destruct front; discriminate E.
Qed.

Lemma Package_new_fields (n v r d : string) (l : option string) (p : Package) :
  Package_new n v r d l = Ok p ->
  name p = n /\ version p = v /\ released p = r /\ description p = d
  /\ enrichment_default p.
Proof.
  unfold Package_new. destruct (strptime r _); [|discriminate].
  intros H. inversion H; subst. unfold enrichment_default. simpl.
  repeat split; reflexivity.
Qed.

End Version.

(** C10 -- When the version header is present but its text is empty or all
    whitespace, extracting the version raises IndexError: the loop body
    fails right after fetching the detail page instead of falling back to
    Unknown. *)
Theorem version_blank_header_raises {C : Collaborators}
        (opts : options) (authparam : option HTTPBasicAuth)
        (snippet name_element header : tag) (st : state) :
  let url := urljoin Config.api_url (assoc "href" (tag_attrs snippet)) in
  let page := BeautifulSoup (text (server (sent st) (GET url [] [] None))) in
  select_one snippet sel_name = Some name_element ->
  select_one page sel_version = Some header ->
  PyStr.all_space (tag_text header) = true ->
  extract_version page = Raise IndexError
  /\ search_body opts authparam snippet st
     = (Raise IndexError,
        {| DEBUG := DEBUG st; sent := (sent st ++ [GET url [] [] None])%list |}).
Proof.
  intros url page Hname Hheader Hblank.
  assert (extract_version page = Raise IndexError) as Hv.
  { unfold extract_version. rewrite Hheader. unfold PyStr.split.
    rewrite (split_ws_blank _ Hblank). reflexivity. }
  split; [exact Hv|].
  unfold search_body. rewrite Hname. simpl text_of.
  unfold bind at 1. unfold lift at 1.
  unfold bind at 1. unfold session_get. rewrite send_eq.
  fold url. fold page. rewrite Hv. reflexivity.
Qed.

Lemma version_blank_header_raises_witness :
  let W := Stub.world Stub.blank_header in
  raised (@search W "foo" (Stub.flags false false) false) = Some IndexError
  /\ @extract_version W (@BeautifulSoup W "detail foo") = Raise IndexError.
Proof.
  intro W. split; [vm_compute; reflexivity|].
  apply (@version_blank_header_raises W (Stub.flags false false) None
           Stub.snippet_foo (Stub.leaf "  foo  " []) (Stub.leaf "   " [])
           {| DEBUG := false; sent := [] |});
    vm_compute; reflexivity.
Defined.

(** ** The challenge *)

(** C4 -- When the search page has no match for the script pattern, or the
    script has no match for the challenge pattern, indexing the empty
    result of [findall] raises IndexError on the first element access:
    nothing is yielded and no request follows the failed one. *)
Theorem challenge_mismatch_raises_IndexError {C : Collaborators}
        (query : string) (opts : options) (debug0 : bool) (d : pyval) :
  getattr opts "debug" = Ok d ->
  let first := GET Config.api_url [("q", PStr query)] headers None in
  let page := text (server [] first) in
  (findall_script page = [] ->
   search query opts debug0
   = {| yielded := []; raised := Some IndexError;
        final := {| DEBUG := truthy d || debug0; sent := [first] |} |})
  /\ (forall path others,
        findall_script page = path :: others ->
        let second := GET ("https://pypi.org/" ++ path ++ "/script.js") [] [] None in
        findall_pow (text (server [first] second)) = [] ->
        search query opts debug0
        = {| yielded := []; raised := Some IndexError;
             final := {| DEBUG := truthy d || debug0;
                         sent := [first; second] |} |}).
Proof.
  intros Hd first page. split.
  - intros Hnone.
    unfold search, search_setup, bind, lift, session_get, send, set_DEBUG, ret.
    rewrite Hd.
    destruct (truthy d); cbv beta iota; cbn [sent DEBUG app];
      fold first; fold page; rewrite Hnone; reflexivity.
  - intros path others Hpath second Hnone.
    unfold search, search_setup, bind, lift, session_get, send, set_DEBUG, ret.
    rewrite Hd.
    destruct (truthy d); cbv beta iota; cbn [sent DEBUG app];
      fold first; fold page; rewrite Hpath; cbv beta iota delta [index_first];
      cbn [sent DEBUG app]; fold second; rewrite Hnone; reflexivity.
Qed.

Lemma challenge_mismatch_raises_IndexError_witness :
  @search (Stub.world Stub.no_challenge) "foo" (Stub.flags false false) false
  = {| yielded := []; raised := Some IndexError;
       final := {| DEBUG := false;
                   sent := [GET Config.api_url [("q", PStr "foo")] headers None] |} |}.
Proof.
  apply (proj1 (@challenge_mismatch_raises_IndexError (Stub.world Stub.no_challenge)
                  "foo" (Stub.flags false false) false (PBool false) eq_refl)).
  reflexivity.
Defined.

(** No ProtocolError: on a search page without the script reference the
    search raises IndexError. *)
Lemma challenge_mismatch_not_ProtocolError :
  @findall_script (Stub.world Stub.no_challenge)
     (text (@server (Stub.world Stub.no_challenge) []
              (GET Config.api_url [("q", PStr "foo")] headers None))) = []
  /\ raised (@search (Stub.world Stub.no_challenge) "foo"
               (Stub.flags false false) false) = Some IndexError
  /\ raised (@search (Stub.world Stub.no_challenge) "foo"
               (Stub.flags false false) false) <> Some ProtocolError.
Proof.
  split; [reflexivity|]. split; [reflexivity | discriminate].
Qed.

(** ** The loop over the snippets *)

Section Loop.
Context {C : Collaborators}.

Lemma search_loop_yield (opts : options) (auth : option HTTPBasicAuth)
      (snippets : list tag) (st : state) (p : Package) :
  In p (yielded (search_loop opts auth snippets st)) ->
  exists snippet st1 st2,
    In snippet snippets /\ search_body opts auth snippet st1 = (Ok p, st2).
Proof.
  revert st. induction snippets as [|s rest IH]; intros st; simpl.
  - intros [].
  - destruct (search_body opts auth s st) as [[q|e] st1] eqn:E; simpl.
    + intros [<- | Hin].
      * exists s, st, st1. split; [left; reflexivity | exact E].
      * destruct (IH st1 Hin) as (s' & sa & sb & Hs' & Hb).
        exists s', sa, sb. split; [right; exact Hs' | exact Hb].
    + intros [].
Qed.

Lemma search_yield (query : string) (opts : options) (debug0 : bool)
      (p : Package) :
  In p (yielded (search query opts debug0)) ->
  exists auth snippet st1 st2,
    In snippet (collected_snippets query opts debug0)
    /\ search_body opts auth snippet st1 = (Ok p, st2).
Proof.
  unfold search, collected_snippets.
  destruct (search_setup query opts _) as [[[snippets auth]|e] st0] eqn:E.
  - intros Hin. apply search_loop_yield in Hin as (s & st1 & st2 & Hs & Hb).
    exists auth, s, st1, st2. split; assumption.
  - intros [].
Qed.

(** What a completed run of the loop body went through. *)
Lemma search_body_inv (opts : options) (auth : option HTTPBasicAuth)
      (snippet : tag) (st st2 : state) (p : Package) :
  search_body opts auth snippet st = (Ok p, st2) ->
  exists name_element v dt desc pack extra,
    select_one snippet sel_name = Some name_element
    /\ extract_version (detail_page snippet st) = Ok v
    /\ Package_new (PyStr.collapse_ws (PyStr.strip (tag_text name_element)))
                   v dt desc (Some (detail_url snippet)) = Ok pack
    /\ getattr opts "extra" = Ok extra
    /\ ((p = pack /\ truthy extra = false)
        \/ (p = pack /\ truthy extra = true
            /\ get_github_info (detail_url snippet) auth (after_detail snippet st)
               = (Ok None, st2))
        \/ (exists info,
              p = set_gh_info pack info /\ truthy extra = true
              /\ get_github_info (detail_url snippet) auth (after_detail snippet st)
                 = (Ok (Some info), st2)
              /\ DEBUG st2 = false)).
Proof.
  unfold search_body. fold (detail_url snippet). intros H.
  step_ok H name_text st1 Hn. apply lift_ok_inv in Hn as [Hn ->].
  destruct (select_one snippet sel_name) as [name_element|] eqn:En;
    [|discriminate Hn].
  simpl in Hn. inversion Hn; subst name_text; clear Hn.
  step_ok H resp st3 Hr. unfold session_get in Hr. rewrite send_eq in Hr.
  inversion Hr; subst resp st3; clear Hr.
  step_ok H v st4 Hv. apply lift_ok_inv in Hv as [Hv ->].
  step_ok H dt st5 Hdt. apply lift_ok_inv in Hdt as [Hdt ->].
  step_ok H desc_text st6 Hde. apply lift_ok_inv in Hde as [Hde ->].
  step_ok H pack st7 Hp. apply lift_ok_inv in Hp as [Hp ->].
  step_ok H extra st8 He. apply lift_ok_inv in He as [He ->].
  exists name_element, v, (PyStr.collapse_ws dt),
    (PyStr.collapse_ws (PyStr.strip desc_text)), pack, extra.
  split; [reflexivity|]. split; [exact Hv|]. split; [exact Hp|].
  split; [exact He|].
  fold (after_detail snippet st) in H.
  destruct (truthy extra).
  - step_ok H info st9 Hi. destruct info as [info|].
    + step_ok H debug st10 Hg. unfold get_DEBUG in Hg.
      inversion Hg; subst debug st10; clear Hg.
      destruct (DEBUG st9) eqn:Ed.
      * discriminate H.
      * inversion H; subst. right. right. exists info.
        repeat split; assumption.
    + inversion H; subst. right. left. repeat split. exact Hi.
  - inversion H; subst. left. split; reflexivity.
Qed.

End Loop.

(** ** Enrichment *)

Section Enrichment.
Context {C : Collaborators}.

Lemma fill_info_cases (r : response) (repo : string) :
  fill_info r repo default_info
  = match json_body r with
    | Some (PDict d) => (info_of_body d repo, None)
    | Some _ => (default_info, Some AttributeError)
    | None => (default_info, Some JSONDecodeError)
    end.
Proof.
  unfold fill_info, json_get.
  destruct (json_body r) as [[]|]; reflexivity.
Qed.

(** The result of [get_repo_info] by status code and body. *)
Lemma get_repo_info_by_status (repo after : string)
      (auth : option HTTPBasicAuth) (st : state) :
  nth_error (PyStr.split_sep "github.com/" repo) 1 = Some after ->
  let r := server (sent st) (api_request after auth) in
  get_repo_info repo auth st
  = (if (status_code r =? 401) || (status_code r =? 404) || (status_code r =? 403)
     then Ok (Some default_info)
     else if status_code r =? 200
          then match json_body r with
               | Some (PDict d) => Ok (Some (info_of_body d repo))
               | Some _ => Ok (Some default_info)
               | None => Raise JSONDecodeError
               end
          else Ok None,
     {| DEBUG := DEBUG st; sent := (sent st ++ [api_request after auth])%list |}).
Proof.
  intros Hafter r. unfold get_repo_info. rewrite Hafter.
  unfold bind, session_get. rewrite send_eq.
  fold (api_request after auth). fold r.
  destruct (status_code r =? 401); [reflexivity|].
  destruct (status_code r =? 404); [reflexivity|].
  destruct (status_code r =? 403); [reflexivity|].
  destruct (status_code r =? 200); [|reflexivity].
  simpl orb. cbv iota. rewrite fill_info_cases.
  destruct (json_body r) as [[]|]; reflexivity.
Qed.

(** The info dict has [set] true exactly on status 200 with a body that
    parses to an object. *)
Lemma repo_info_set_iff (repo after : string) (auth : option HTTPBasicAuth)
      (st : state) :
  nth_error (PyStr.split_sep "github.com/" repo) 1 = Some after ->
  let r := server (sent st) (api_request after auth) in
  (exists info, fst (get_repo_info repo auth st) = Ok (Some info)
                /\ info_set_flag info = true)
  <-> (status_code r = 200 /\ exists d, json_body r = Some (PDict d)).
Proof.
  intros Hafter r. rewrite (get_repo_info_by_status repo after auth st Hafter).
  cbv zeta. fold r. cbn [fst].
  destruct (Z.eqb_spec (status_code r) 401) as [E1|N1];
    [|destruct (Z.eqb_spec (status_code r) 404) as [E2|N2];
      [|destruct (Z.eqb_spec (status_code r) 403) as [E3|N3];
        [|destruct (Z.eqb_spec (status_code r) 200) as [E4|N4]]]];
    cbn [orb].
  1-3: split; [intros (info & H & Hs); inversion H; subst; discriminate Hs
              | intros [H _]; lia].
  - destruct (json_body r) as [[]|]; split;
      try (intros (info & H & Hs); inversion H; subst; discriminate Hs);
      try (intros [_ [d H]]; discriminate H).
    + intros _. split; [exact E4 | eexists; reflexivity].
    + intros _. eexists. split; reflexivity.
  - split; [intros (info & H & _); discriminate H | intros [H _]; contradiction].
Qed.

(** A link without the host part gives the defaults without any request. *)
Lemma get_repo_info_no_host (repo : string) (auth : option HTTPBasicAuth)
      (st : state) :
  nth_error (PyStr.split_sep "github.com/" repo) 1 = None ->
  get_repo_info repo auth st = (Ok (Some default_info), st).
Proof. intros H. unfold get_repo_info. rewrite H. reflexivity. Qed.

(** An info dict that comes back is the default one or a filled one. *)
Lemma get_repo_info_some (repo : string) (auth : option HTTPBasicAuth)
      (st st' : state) (info : RepoInfo) :
  get_repo_info repo auth st = (Ok (Some info), st') ->
  info = default_info
  \/ (info_set_flag info = true /\ info_github_link info = repo).
Proof.
  destruct (nth_error (PyStr.split_sep "github.com/" repo) 1) as [after|] eqn:E.
  - rewrite (get_repo_info_by_status repo after auth st E). cbv zeta.
    set (r := server (sent st) (api_request after auth)).
    destruct ((status_code r =? 401) || (status_code r =? 404)
              || (status_code r =? 403)).
    + intros H. inversion H. left. reflexivity.
    + destruct (status_code r =? 200); [|discriminate].
      destruct (json_body r) as [[]|]; intros H; inversion H;
        try (left; reflexivity).
      right. split; reflexivity.
  - rewrite (get_repo_info_no_host repo auth st E).
    intros H. inversion H. left. reflexivity.
Qed.

Lemma get_github_info_some (repolink : string) (auth : option HTTPBasicAuth)
      (st st' : state) (info : RepoInfo) :
  get_github_info repolink auth st = (Ok (Some info), st') ->
  info = default_info \/ info_set_flag info = true.
Proof.
  unfold get_github_info. intros H. step_ok H gh st1 Hl.
  destruct gh as [l|]; [|discriminate H].
  apply get_repo_info_some in H as [H | [H _]]; [left | right]; exact H.
Qed.

Lemma set_gh_info_enriched (p : Package) (info : RepoInfo) :
  enriched_with info (set_gh_info p info).
Proof. unfold enriched_with. simpl. repeat split; reflexivity. Qed.

End Enrichment.

(** With the API answering 404 the lookup fails ([set] stays false), yet the
    package is yielded with [info_set] true. *)
Lemma info_set_after_failed_lookup :
  let sc := Stub.usual (Stub.status 404) in
  let p := Stub.foo_package sc (PInt 0) (PInt 0) (PInt 0) "" true in
  In p (yielded (@search (Stub.world sc) "foo" (Stub.flags false true) false))
  /\ @info_set (Stub.world sc) p = true
  /\ ~ @enrichment_default (Stub.world sc) p
  /\ (forall st,
        fst (@get_github_info (Stub.world sc) (@link (Stub.world sc) p)
               (Some {| username := None; password := None |}) st)
        = Ok (Some default_info))
  /\ info_set_flag default_info = false.
Proof.
  intros sc p. split; [exact (or_introl eq_refl)|].
  split; [reflexivity|]. split.
  - intros (_ & _ & _ & _ & H). discriminate H.
  - split; [intros st; reflexivity | reflexivity].
Qed.

(** C3 -- On a status other than 200, 401, 403 and 404 the function runs
    off its end and returns None instead of the default info dict, and on
    status 200 with a body that does not parse the decoding error leaves
    the function. *)
Theorem repo_info_unhandled_responses :
  (forall st,
     fst (@get_repo_info (Stub.world (Stub.usual (Stub.status 500)))
            "https://github.com/owner/foo" None st) = Ok None)
  /\ (forall st,
        fst (@get_repo_info (Stub.world (Stub.usual (Stub.status 200)))
               "https://github.com/owner/foo" None st) = Raise JSONDecodeError).
Proof. split; intros st; reflexivity. Qed.

(** ** Facts about the string primitives *)

Section StringFacts.

Lemma contains_cons (p : string) (c : ascii) (s : string) :
  PyStr.contains p (String c s)
  = if String.prefix p (String c s) then true else PyStr.contains p s.
Proof. reflexivity. Qed.

Lemma replace_from_cons (old new : string) (c : ascii) (s : string) :
  PyStr.replace_from old new O (String c s)
  = if String.prefix old (String c s)
    then new ++ PyStr.replace_from old new (Nat.pred (String.length old)) s
    else String c (PyStr.replace_from old new O s).
Proof. reflexivity. Qed.

(** Nothing to replace: the string is returned as it is. *)
Lemma replace_absent (old new s : string) :
  PyStr.contains old s = false -> PyStr.replace old new s = s.
Proof.
  unfold PyStr.replace. induction s as [|c s IH]; [reflexivity|].
  rewrite contains_cons, replace_from_cons.
  destruct (String.prefix old (String c s)); [discriminate|].
  intros H. rewrite (IH H). reflexivity.
Qed.

(** Appending a string that starts with a character foreign to [p] does
    not turn a non-prefix into a prefix. *)
Lemma prefix_app_foreign (p t u : string) (c : ascii) :
  PyStr.occurs c p = false -> String.prefix p t = false ->
  String.prefix p (t ++ String c u) = false.
Proof.
  revert t. induction p as [|a p IH]; intros t Hc Hp.
  - destruct t; discriminate Hp.
  - unfold PyStr.occurs in Hc. simpl in Hc. apply orb_false_iff in Hc as [Hca Hc].
    destruct t as [|b t]; simpl in *.
    + destruct (ascii_dec a c) as [->|]; [|reflexivity].
      rewrite Ascii.eqb_refl in Hca. discriminate Hca.
    + destruct (ascii_dec a b); [|reflexivity]. apply IH; assumption.
Qed.

Lemma prefix_cons (a b : ascii) (p t : string) :
  String.prefix (String a p) (String b t)
  = if ascii_dec a b then String.prefix p t else false.
Proof. reflexivity. Qed.

Lemma prefix_tags_app (c : ascii) (t : string) :
  String.prefix "/tags" (String c t) = false ->
  String.prefix "/tags" (String c (t ++ "/tags")) = false.
Proof.
  rewrite !prefix_cons. destruct (ascii_dec "/" c); [|reflexivity].
  intros H. apply (prefix_app_foreign "tags" t "tags" "/"); [reflexivity | exact H].
Qed.

(** A single occurrence at the very end is removed. *)
Lemma replace_trailing_tags (t : string) :
  PyStr.contains "/tags" t = false ->
  PyStr.replace "/tags" "" (t ++ "/tags") = t.
Proof.
  unfold PyStr.replace. induction t as [|c t IH]; [reflexivity|].
  rewrite contains_cons.
  destruct (String.prefix "/tags" (String c t)) eqn:E; [discriminate|].
  intros H. change (String c t ++ "/tags") with (String c (t ++ "/tags")).
  rewrite replace_from_cons, (prefix_tags_app c t E), (IH H). reflexivity.
Qed.

Lemma length_app (t u : string) :
  String.length (t ++ u) = (String.length t + String.length u)%nat.
Proof. induction t as [|c t IH]; simpl; [reflexivity | rewrite IH; reflexivity]. Qed.

Lemma substring_all (u : string) : String.substring 0 (String.length u) u = u.
Proof. induction u as [|c u IH]; simpl; [reflexivity | rewrite IH; reflexivity]. Qed.

Lemma substring_app_left (t u : string) :
  String.substring 0 (String.length t) (t ++ u) = t.
Proof.
  induction t as [|c t IH]; simpl.
  - destruct u; reflexivity.
  - rewrite IH. reflexivity.
Qed.

Lemma substring_app_right (t u : string) :
  String.substring (String.length t) (String.length u) (t ++ u) = u.
Proof.
  induction t as [|c t IH]; simpl; [apply substring_all | exact IH].
Qed.

Lemma endswith_app (t u : string) : PyStr.endswith u (t ++ u) = true.
Proof.
  unfold PyStr.endswith. rewrite length_app.
  replace (String.length t + String.length u - String.length u)%nat
    with (String.length t) by lia.
  rewrite substring_app_right, String.eqb_refl, andb_true_r.
  apply Nat.leb_le. lia.
Qed.

Lemma substring_contains (p s : string) (k : nat) :
  p <> "" -> String.substring k (String.length p) s = p ->
  PyStr.contains p s = true.
Proof.
  intros Hp. revert k. induction s as [|c s IH]; intros k H.
  - destruct k, (String.length p); simpl in H; destruct (Hp (eq_sym H)).
  - rewrite contains_cons. destruct k as [|k].
    + apply String.prefix_correct in H. rewrite H. reflexivity.
    + simpl in H. rewrite (IH k H).
      destruct (String.prefix p (String c s)); reflexivity.
Qed.

Lemma endswith_contains (s : string) :
  PyStr.endswith "/tags" s = true -> PyStr.contains "/tags" s = true.
Proof.
  unfold PyStr.endswith. intros H. apply andb_true_iff in H as [_ H].
  apply String.eqb_eq in H.
  apply (substring_contains "/tags" s (String.length s - 5)); [discriminate|].
  exact H.
Qed.

Lemma strip_trailing_tags_app (t : string) :
  PyStr.strip_trailing_tags (t ++ "/tags") = t.
Proof.
  unfold PyStr.strip_trailing_tags. rewrite endswith_app, length_app.
  simpl String.length.
  replace (String.length t + 5 - 5)%nat with (String.length t) by lia.
  apply substring_app_left.
Qed.

Lemma strip_trailing_tags_absent (s : string) :
  PyStr.contains "/tags" s = false -> PyStr.strip_trailing_tags s = s.
Proof.
  intros H. unfold PyStr.strip_trailing_tags.
  destruct (PyStr.endswith "/tags" s) eqn:E; [|reflexivity].
  apply endswith_contains in E. rewrite E in H. discriminate H.
Qed.

End StringFacts.

(** ** The repository link *)

(** C6 -- When the primary slot holds a link, the resolved link is that
    link, or the link of the alternate slot when the primary one contains
    issues.  Without github in the resolved link the result is None;
    otherwise it is the pair of the resolved link with every occurrence of
    /tags removed (github) and the resolved link itself (homepage).
    Removing every occurrence is stripping a trailing /tags whenever /tags
    occurs nowhere else in the link. *)
Theorem get_links_resolution {C : Collaborators} (pkg_url : string) (st : state)
        (primary : tag) (href0 resolved : string) :
  let soup := BeautifulSoup (text (server (sent st) (GET pkg_url [] [] None))) in
  select_one soup csspath = Some primary ->
  assoc "href" (tag_attrs primary) = Some href0 ->
  (if PyStr.contains "issues" href0
   then exists alt, select_one soup csspath_alt = Some alt
                    /\ assoc "href" (tag_attrs alt) = Some resolved
   else resolved = href0) ->
  fst (get_links pkg_url st)
  = Ok (if PyStr.contains "github" resolved
        then Some {| github := PyStr.replace "/tags" "" resolved;
                     homepage := resolved |}
        else None)
  /\ (PyStr.contains "/tags" resolved = false ->
      PyStr.replace "/tags" "" resolved = PyStr.strip_trailing_tags resolved)
  /\ (forall t, resolved = t ++ "/tags" -> PyStr.contains "/tags" t = false ->
      PyStr.replace "/tags" "" resolved = PyStr.strip_trailing_tags resolved).
Proof.
  intros soup Hprimary Hhref Hresolved. split; [|split].
  - unfold get_links, bind, session_get. rewrite send_eq. fold soup.
    unfold try_except, lift, resolve_links.
    rewrite Hprimary. cbn [attrs_of]. unfold getitem at 1. rewrite Hhref.
    destruct (PyStr.contains "issues" href0).
    + destruct Hresolved as (alt & Halt & Hr).
      rewrite Halt. cbn [attrs_of]. unfold getitem. rewrite Hr.
      destruct (PyStr.contains "github" resolved); reflexivity.
    + subst resolved. destruct (PyStr.contains "github" href0); reflexivity.
  - intros H. rewrite (replace_absent _ _ _ H), (strip_trailing_tags_absent _ H).
    reflexivity.
  - intros t -> H. rewrite (replace_trailing_tags _ H), strip_trailing_tags_app.
    reflexivity.
Qed.

Lemma get_links_resolution_witness :
  fst (@get_links (Stub.world Stub.issues_first) "https://pypi.org/project/foo/"
         {| DEBUG := false; sent := [] |})
  = Ok (Some {| github := "https://github.com/owner/foo";
                homepage := "https://github.com/owner/foo/tags" |}).
Proof.
  apply (proj1 (@get_links_resolution (Stub.world Stub.issues_first)
                  "https://pypi.org/project/foo/"
                  {| DEBUG := false; sent := [] |}
                  (Stub.leaf "" [("href", "https://github.com/owner/foo/issues")])
                  "https://github.com/owner/foo/issues"
                  "https://github.com/owner/foo/tags"
                  eq_refl eq_refl
                  (ex_intro _ (Stub.leaf "" [("href", "https://github.com/owner/foo/tags")])
                            (conj eq_refl eq_refl)))).
Defined.

(** A link with /tags inside a longer segment loses it, although it has no
    trailing /tags segment to strip. *)
Lemma tags_removed_inside_link :
  fst (@get_links (Stub.world Stub.tagsoup) "https://pypi.org/project/foo/"
         {| DEBUG := false; sent := [] |})
  = Ok (Some {| github := "https://github.com/owneroup";
                homepage := "https://github.com/owner/tagsoup" |})
  /\ PyStr.strip_trailing_tags "https://github.com/owner/tagsoup"
     = "https://github.com/owner/tagsoup"
  /\ "https://github.com/owneroup"
     <> PyStr.strip_trailing_tags "https://github.com/owner/tagsoup".
Proof.
  split; [reflexivity|]. split; [reflexivity|]. discriminate.
Qed.

(** * Further properties of the module *)

(** ** The answer of the solver *)

(** X1 -- The solver gives a non-empty answer exactly when some suffix of
    the keyspace has the target digest, and a non-empty answer is always the
    string of two characters [c1], [c2] of the alphabet such that the digest
    of [base + c1 + c2] is the target. *)
Theorem solve_sound_and_complete {C : Collaborators} (base hash : string) :
  (solve base hash <> ""
   <-> exists c1 c2, In c1 characters /\ In c2 characters
                     /\ sha256_hexdigest ((base ++ String c1 "") ++ String c2 "") = hash)
  /\ (solve base hash = ""
      \/ exists c1 c2,
          In c1 characters /\ In c2 characters
          /\ solve base hash = String c1 (String c2 EmptyString)
          /\ sha256_hexdigest ((base ++ String c1 "") ++ String c2 "") = hash).
Proof.
  rewrite solve_find.
  destruct (List.find (is_answer base hash) keyspace) as [[c1 c2]|] eqn:E.
  - apply find_some in E as [Hin Hans].
    apply in_keyspace in Hin as [H1 H2].
    unfold is_answer, candidate in Hans. simpl in Hans.
    apply String.eqb_eq in Hans.
    split.
    + split; [intros _ | intros _; discriminate].
      exists c1, c2. repeat split; assumption.
    + right. exists c1, c2.
      split; [exact H1|]. split; [exact H2|]. split; [reflexivity | exact Hans].
  - split; [|left; reflexivity].
    split; [intros H; destruct (H eq_refl)|].
    intros (c1 & c2 & H1 & H2 & Hd). exfalso.
    assert (In (c1, c2) keyspace) as Hin by (apply in_keyspace; split; assumption).
    pose proof (find_none _ _ E _ Hin) as Hno.
    unfold is_answer, candidate in Hno. simpl in Hno.
    apply String.eqb_neq in Hno. exact (Hno Hd).
Qed.

(** ** States that follow one another *)

Section Following.
Context {C : Collaborators}.
Variable P : request -> Prop.

Lemma follows_refl (st : state) : follows P st st.
Proof.
  split; [reflexivity|]. exists []. split; [symmetry; apply app_nil_r | constructor].
Qed.

Lemma follows_trans (st1 st2 st3 : state) :
  follows P st1 st2 -> follows P st2 st3 -> follows P st1 st3.
Proof.
  intros [Hd1 (m1 & Hs1 & Hf1)] [Hd2 (m2 & Hs2 & Hf2)]. split.
  - rewrite Hd2. exact Hd1.
  - exists (m1 ++ m2)%list. split.
    + rewrite Hs2, Hs1. symmetry. apply app_assoc.
    + apply Forall_app. split; assumption.
Qed.

Lemma respects_ret {A} (a : A) : respects P (ret a).
Proof. intros st r st' H. inversion H. apply follows_refl. Qed.

Lemma respects_lift {A} (x : result A) : respects P (lift x).
Proof. intros st r st' H. inversion H. apply follows_refl. Qed.

Lemma respects_raise {A} (e : exn) : respects P (@raise A e).
Proof. apply respects_lift. Qed.

Lemma respects_get_DEBUG : respects P get_DEBUG.
Proof. intros st r st' H. inversion H. apply follows_refl. Qed.

Lemma respects_bind {A B} (m : M A) (k : A -> M B) :
  respects P m -> (forall a, respects P (k a)) -> respects P (bind m k).
Proof.
  intros Hm Hk st r st'. unfold bind.
  destruct (m st) as [[a|e] st1] eqn:E; intros H.
  - apply (follows_trans st st1 st'); [exact (Hm _ _ _ E) | exact (Hk a _ _ _ H)].
  - inversion H; subst. exact (Hm _ _ _ E).
Qed.

Lemma respects_try_except {A} (body : M A) (caught : exn -> bool)
      (handler : exn -> M A) :
  respects P body -> (forall e, respects P (handler e)) ->
  respects P (try_except body caught handler).
Proof.
  intros Hb Hh st r st'. unfold try_except.
  destruct (body st) as [[a|e] st1] eqn:E.
  - intros H. inversion H; subst. exact (Hb _ _ _ E).
  - destruct (caught e); intros H.
    + apply (follows_trans st st1 st'); [exact (Hb _ _ _ E) | exact (Hh e _ _ _ H)].
    + inversion H; subst. exact (Hb _ _ _ E).
Qed.

Lemma respects_send (rq : request) : P rq -> respects P (send rq).
Proof.
  intros Hrq st r st' H. rewrite send_eq in H. inversion H; subst.
  split; [reflexivity|]. exists [rq]. split; [reflexivity|].
  constructor; [exact Hrq | constructor].
Qed.

End Following.

Lemma respects_mono {C : Collaborators} (P Q : request -> Prop) {A} (m : M A) :
  (forall rq, P rq -> Q rq) -> respects P m -> respects Q m.
Proof.
  intros HPQ Hm st r st' H. destruct (Hm st r st' H) as [Hd (more & Hs & Hf)].
  split; [exact Hd|]. exists more. split; [exact Hs|].
  apply (Forall_impl Q HPQ). exact Hf.
Qed.

(** One step of the proof that a computation respects [P]. *)
Ltac respects_step :=
  cbv zeta;
  lazymatch goal with
  | |- respects _ (ret _) => apply respects_ret
  | |- respects _ (lift _) => apply respects_lift
  | |- respects _ (raise _) => apply respects_raise
  | |- respects _ get_DEBUG => apply respects_get_DEBUG
  | |- respects _ (bind _ _) => apply respects_bind; [|intros ?]
  | |- respects _ (try_except _ _ _) => apply respects_try_except; [|intros ?]
  | |- respects _ (session_get _ _ _ _) =>
      apply respects_send; simpl; auto
  | |- respects _ (session_post _ _) =>
      apply respects_send; simpl; auto
  | |- respects _ (match ?x with _ => _ end) => destruct x
  | |- respects _ (if ?b then _ else _) => destruct b
  end.

Lemma prefix_app (p x : string) : String.prefix p (p ++ x) = true.
Proof.
  induction p as [|a p IH]; simpl.
  - destruct x; reflexivity.
  - destruct (ascii_dec a a) as [_|N]; [exact IH | destruct (N eq_refl)].
Qed.

Section Sessions.
Context {C : Collaborators}.

Lemma respects_get_links (A : option HTTPBasicAuth) (pkg_url : string) :
  respects (carries A) (get_links pkg_url).
Proof. unfold get_links. repeat respects_step. Qed.

Lemma respects_get_repo_info (repo : string) (auth : option HTTPBasicAuth) :
  respects (carries auth) (get_repo_info repo auth).
Proof.
  unfold get_repo_info. cbv zeta.
  destruct (nth_error _ 1) as [after|]; [|apply respects_ret].
  apply respects_bind.
  - apply respects_send. destruct auth as [a|]; unfold carries; [|exact I].
    split; [apply prefix_app | reflexivity].
  - intros r. repeat respects_step.
Qed.

Lemma respects_get_github_info (repolink : string) (auth : option HTTPBasicAuth) :
  respects (carries auth) (get_github_info repolink auth).
Proof.
  unfold get_github_info. apply respects_bind.
  - apply respects_get_links.
  - intros [l|]; [apply respects_get_repo_info | apply respects_ret].
Qed.

Lemma respects_fetch_pages (A : option HTTPBasicAuth) (query : string)
      (pages : list nat) (snippets : list tag) :
  respects (carries A) (fetch_pages query pages snippets).
Proof.
  revert snippets. induction pages as [|page rest IH]; intros snippets; simpl.
  - apply respects_ret.
  - apply respects_bind; [apply respects_send; exact I | intros r; apply IH].
Qed.

Lemma respects_search_body (opts : options) (auth : option HTTPBasicAuth)
      (snippet : tag) :
  respects (carries auth) (search_body opts auth snippet).
Proof.
  unfold search_body.
  repeat first [apply respects_get_github_info | respects_step].
Qed.

Lemma search_loop_follows (opts : options) (auth : option HTTPBasicAuth)
      (snippets : list tag) (st : state) :
  follows (carries auth) st (final (search_loop opts auth snippets st)).
Proof.
  revert st. induction snippets as [|s rest IH]; intros st; simpl.
  - apply follows_refl.
  - destruct (search_body opts auth s st) as [[p|e] st1] eqn:E; simpl.
    + apply (follows_trans _ st st1); [|apply IH].
      exact (respects_search_body opts auth s _ _ _ E).
    + exact (respects_search_body opts auth s _ _ _ E).
Qed.

(** The set-up sets the flag when [opts.debug] is true and sends requests
    without credentials. *)
Lemma search_setup_follows (query : string) (opts : options) (st st' : state)
      (r : result (list tag * option HTTPBasicAuth)) :
  search_setup query opts st = (r, st') ->
  DEBUG st' = debug_flag opts || DEBUG st
  /\ exists more, sent st' = (sent st ++ more)%list /\ Forall (carries None) more.
Proof.
  unfold search_setup, debug_flag.
  unfold bind at 1. unfold lift at 1.
  destruct (getattr opts "debug") as [d|e].
  - unfold bind at 1.
    set (st1 := if truthy d then {| DEBUG := true; sent := sent st |} else st).
    assert (DEBUG st1 = truthy d || DEBUG st /\ sent st1 = sent st) as [Hd Hs]
        by (unfold st1; destruct (truthy d); split; reflexivity).
    replace ((if truthy d then set_DEBUG else ret tt) st) with (Ok tt, st1)
      by (unfold st1; destruct (truthy d); reflexivity).
    intros H.
    match type of H with
    | ?tail st1 = _ =>
        assert (respects (carries None) tail) as Ht
            by (repeat first [apply respects_fetch_pages | respects_step])
    end.
    destruct (Ht _ _ _ H) as [Hd' (more & Hs' & Hf)].
    split; [rewrite Hd'; exact Hd|].
    exists more. rewrite Hs', Hs. split; [reflexivity | exact Hf].
  - intros H. inversion H; subst. split; [reflexivity|].
    exists []. split; [symmetry; apply app_nil_r | constructor].
Qed.

Lemma search_setup_auth (query : string) (opts : options) (st st' : state)
      (snippets : list tag) (auth : option HTTPBasicAuth) :
  search_setup query opts st = (Ok (snippets, auth), st') -> auth = auth_of opts.
Proof.
  unfold search_setup, auth_of. intros H.
  step_ok H d st1 Hd. step_ok H u st2 H2. step_ok H r1 st3 H3.
  step_ok H path st4 H4. step_ok H r2 st5 H5. step_ok H pow st6 H6.
  destruct pow as [[[[base hash] hmac] expires] token].
  step_ok H r3 st7 H7. step_ok H sn st8 H8. step_ok H e st9 He.
  apply lift_ok_inv in He as [He _]. rewrite He.
  inversion H. reflexivity.
Qed.

End Sessions.

Lemma carries_none_any {C : Collaborators} (A : option HTTPBasicAuth)
      (rq : request) :
  carries None rq -> carries A rq.
Proof.
  destruct rq as [url params hd [a|]|url j]; simpl; intros H;
    [destruct H as [_ H]; discriminate H | exact I | exact I].
Qed.

(** X2 -- Credentials only ever travel to the repository API: in the whole
    log of a search, a request that carries credentials goes to an address
    under https://api.github.com/repos/ and carries the pair read from the
    environment, and there is such a request only when [opts.extra] is
    true.  This holds also for a search that ends with an exception. *)
Theorem credentials_only_to_api {C : Collaborators}
        (query : string) (opts : options) (debug0 : bool) :
  Forall (carries (auth_of opts)) (sent (final (search query opts debug0))).
Proof.
  unfold search.
  destruct (search_setup query opts {| DEBUG := debug0; sent := [] |})
    as [[[snippets auth]|e] st] eqn:E.
  - pose proof (search_setup_auth _ _ _ _ _ _ E) as ->.
    apply search_setup_follows in E as [_ (more & Hs & Hf)].
    destruct (search_loop_follows opts (auth_of opts) snippets st)
      as [_ (more2 & Hs2 & Hf2)].
    rewrite Hs2, Hs. simpl. apply Forall_app. split; [|exact Hf2].
    apply (Forall_impl _ (carries_none_any (auth_of opts))). exact Hf.
  - apply search_setup_follows in E as [_ (more & Hs & Hf)].
    simpl. rewrite Hs. simpl.
    apply (Forall_impl _ (carries_none_any (auth_of opts))). exact Hf.
Qed.

(** X3 -- The global DEBUG flag is set and never cleared: when a search
    ends, normally or not, the flag is on exactly if it was on when the
    generator started or [opts.debug] is true.  A search with
    [opts.debug] false therefore leaves an earlier search's flag on. *)
Theorem debug_flag_never_cleared {C : Collaborators}
        (query : string) (opts : options) (debug0 : bool) :
  DEBUG (final (search query opts debug0)) = debug_flag opts || debug0.
Proof.
  unfold search.
  destruct (search_setup query opts {| DEBUG := debug0; sent := [] |})
    as [[[snippets auth]|e] st] eqn:E;
    apply search_setup_follows in E as [Hd _]; simpl in Hd.
  - destruct (search_loop_follows opts auth snippets st) as [Hd2 _].
    rewrite Hd2. exact Hd.
  - exact Hd.
Qed.

(** ** The set-up of a search *)

Section Setup.
Context {C : Collaborators}.

Lemma index_first_ok {A} (l : list A) (x : A) :
  index_first l = Ok x -> exists others, l = x :: others.
Proof.
  destruct l as [|y l]; simpl; intros H; [discriminate H|].
  inversion H; subst. exists l. reflexivity.
Qed.

(** What a completed set-up went through. *)
Lemma search_setup_inv (query : string) (opts : options) (st st' : state)
      (snippets : list tag) (auth : option HTTPBasicAuth) :
  search_setup query opts st = (Ok (snippets, auth), st') ->
  exists path others base hash hmac expires token more,
    let sr := search_request query in
    let sc := script_request path in
    let ar := answer_request path base hash hmac expires token in
    let p1 := page_request query 1 in
    let p2 := page_request query 2 in
    findall_script (text (server (sent st) sr)) = path :: others
    /\ findall_pow (text (server (sent st ++ [sr]) sc))
       = (base, hash, hmac, expires, token) :: more
    /\ sent st' = (sent st ++ [sr; sc; ar; p1; p2])%list
    /\ snippets
       = (select (BeautifulSoup (text (server (sent st ++ [sr; sc; ar]) p1)))
                 sel_snippet
          ++ select (BeautifulSoup (text (server (sent st ++ [sr; sc; ar; p1]) p2)))
                    sel_snippet)%list.
Proof.
  unfold search_setup. intros H.
  step_ok H d st1 Hd. apply lift_ok_inv in Hd as [_ ->].
  step_ok H u st2 H2.
  assert (sent st2 = sent st) as Hs2
      by (destruct (truthy d); inversion H2; reflexivity).
  clear H2.
  step_ok H r1 st3 H3. unfold session_get in H3. rewrite send_eq in H3.
  inversion H3; subst r1 st3; clear H3. rewrite Hs2 in H.
  step_ok H path st4 H4. apply lift_ok_inv in H4 as [H4 ->].
  apply index_first_ok in H4 as [others Hpath].
  step_ok H r2 st5 H5. unfold session_get in H5. rewrite send_eq in H5.
  inversion H5; subst r2 st5; clear H5. cbn [sent] in H.
  step_ok H pow st6 H6. apply lift_ok_inv in H6 as [H6 ->].
  destruct pow as [[[[base hash] hmac] expires] token].
  apply index_first_ok in H6 as [more Hpow].
  step_ok H r3 st7 H7. unfold session_post in H7. rewrite send_eq in H7.
  inversion H7; subst r3 st7; clear H7. cbn [sent] in H.
  step_ok H sn st8 H8.
  change (seq 1 Config.page_size) with [1%nat; 2%nat] in H8.
  cbn [fetch_pages] in H8.
  step_ok H8 q1 st9 H9. unfold session_get in H9. rewrite send_eq in H9.
  inversion H9; subst q1 st9; clear H9. cbn [sent] in H8.
  step_ok H8 q2 st10 H10. unfold session_get in H10. rewrite send_eq in H10.
  inversion H10; subst q2 st10; clear H10. cbn [sent] in H8.
  inversion H8; subst sn st8; clear H8.
  step_ok H e st11 He. apply lift_ok_inv in He as [_ ->].
  inversion H; subst; clear H.
  exists path, others, base, hash, hmac, expires, token, more.
  cbv zeta. split; [exact Hpath|]. split; [exact Hpow|].
  cbn [sent]. repeat rewrite <- app_assoc. split; reflexivity.
Qed.

End Setup.

(** X4 -- The protocol order of a set-up that completes: the session sends
    the search request, the request for the script the search page names,
    then the answer, and only then the two result pages, 1 before 2.  The
    answer request posts the base, hmac, expires and token of the challenge
    as found in the script, with the answer the solver computes for its
    base and hash. *)
Theorem setup_request_order {C : Collaborators}
        (query : string) (opts : options) (debug0 : bool)
        (snippets : list tag) (auth : option HTTPBasicAuth) (st : state) :
  search_setup query opts {| DEBUG := debug0; sent := [] |}
  = (Ok (snippets, auth), st) ->
  exists path others base hash hmac expires token more,
    findall_script (text (server [] (search_request query))) = path :: others
    /\ findall_pow (text (server [search_request query] (script_request path)))
       = (base, hash, hmac, expires, token) :: more
    /\ sent st
       = [search_request query;
          script_request path;
          POST ("https://pypi.org/" ++ path ++ "/fst-post-back")
               (PDict [("token", PStr token);
                       ("data", PList [PDict [("ty", PStr "pow");
                                              ("base", PStr base);
                                              ("answer", PStr (solve base hash));
                                              ("hmac", PStr hmac);
                                              ("expires", PStr expires)]])]);
          page_request query 1;
          page_request query 2].
Proof.
  intros H. apply search_setup_inv in H
    as (path & others & base & hash & hmac & expires & token & more
        & Hpath & Hpow & Hsent & _).
  exists path, others, base, hash, hmac, expires, token, more.
  split; [exact Hpath|]. split; [exact Hpow | exact Hsent].
Qed.

Lemma setup_request_order_witness :
  let W := Stub.world (Stub.usual Stub.found_json) in
  exists path base hash hmac expires token,
    sent (snd (@search_setup W "foo" (Stub.flags false false)
                 {| DEBUG := false; sent := [] |}))
    = [search_request "foo";
       script_request path;
       @answer_request W path base hash hmac expires token;
       page_request "foo" 1;
       page_request "foo" 2]
    /\ @solve W base hash = "ab".
Proof.
  intro W.
  destruct (@search_setup W "foo" (Stub.flags false false)
              {| DEBUG := false; sent := [] |}) as [[[snippets auth]|e] st] eqn:E;
    [|vm_compute in E; discriminate E].
  destruct (@setup_request_order W "foo" (Stub.flags false false) false
              snippets auth st E)
    as (path & others & base & hash & hmac & expires & token & more
        & Hpath & Hpow & Hsent).
  vm_compute in Hpath. inversion Hpath; subst path others.
  vm_compute in Hpow. inversion Hpow; subst.
  exists "ch4ll", "abc", Stub.target, "mac", "soon", "tok".
  split; [exact Hsent | vm_compute; reflexivity].
Defined.



(** ** The order of the yields *)

Section Yields.
Context {C : Collaborators}.

Lemma search_loop_prefix (opts : options) (auth : option HTTPBasicAuth)
      (snippets : list tag) (st : state) :
  exists done rest,
    snippets = (done ++ rest)%list
    /\ Forall2 (fun s p => exists st1 st2,
                    search_body opts auth s st1 = (Ok p, st2))
               done (yielded (search_loop opts auth snippets st))
    /\ match raised (search_loop opts auth snippets st) with
       | None => rest = []
       | Some e => exists s rest' st1 st2,
           rest = s :: rest' /\ search_body opts auth s st1 = (Raise e, st2)
       end.
Proof.
  revert st. induction snippets as [|s l IH]; intros st.
  - exists [], []. simpl. repeat split. constructor.
  - simpl. destruct (search_body opts auth s st) as [[p|e] st1] eqn:E; simpl.
    + destruct (IH st1) as (done & rest & Hl & Hf & Hr).
      exists (s :: done), rest. split; [rewrite Hl; reflexivity|].
      split; [|exact Hr].
      constructor; [exists st, st1; exact E | exact Hf].
    + exists [], (s :: l). split; [reflexivity|]. split; [constructor|].
      exists s, l, st, st1. split; [reflexivity | exact E].
Qed.

End Yields.

(** X6 -- The packages come in the order of the snippets, one per snippet:
    the yielded packages are those of an initial part of the collected
    snippets, each made by the loop body from its snippet.  The search ends
    normally only when every snippet gave a package; otherwise it ends with
    the exception the body raised on the first snippet left, after the
    packages of the snippets before it have been yielded. *)
Theorem yields_follow_snippets {C : Collaborators}
        (query : string) (opts : options) (debug0 : bool) :
  let r := search query opts debug0 in
  exists done rest,
    collected_snippets query opts debug0 = (done ++ rest)%list
    /\ Forall2 (fun s p => exists st1 st2,
                    search_body opts (auth_of opts) s st1 = (Ok p, st2))
               done (yielded r)
    /\ (raised r = None -> rest = [])
    /\ (forall s rest', rest = s :: rest' ->
          exists e st1 st2,
            raised r = Some e
            /\ search_body opts (auth_of opts) s st1 = (Raise e, st2)).
Proof.
  unfold search, collected_snippets.
  destruct (search_setup query opts {| DEBUG := debug0; sent := [] |})
    as [[[snippets auth]|e] st] eqn:E.
  - pose proof (search_setup_auth _ _ _ _ _ _ E) as ->.
    destruct (search_loop_prefix opts (auth_of opts) snippets st)
      as (done & rest & Hl & Hf & Hr).
    exists done, rest. split; [exact Hl|]. split; [exact Hf|].
    destruct (raised (search_loop opts (auth_of opts) snippets st)) as [e|].
    + destruct Hr as (s & rest' & st1 & st2 & -> & Hb).
      split; [discriminate|].
      intros s0 rest0 Heq. inversion Heq; subst.
      exists e, st1, st2. split; [reflexivity | exact Hb].
    + subst rest. split; [reflexivity | discriminate].
  - exists [], []. simpl. split; [reflexivity|]. split; [constructor|].
    split; [discriminate | discriminate].
Qed.

(** ** The requests of the loop *)

Section LoopRequests.
Context {C : Collaborators}.

Lemma state_eq (st st' : state) :
  DEBUG st' = DEBUG st -> sent st' = sent st -> st' = st.
Proof. destruct st, st'. simpl. intros -> ->. reflexivity. Qed.

Lemma follows_nothing (st st' : state) : follows nothing st st' -> st' = st.
Proof.
  intros [Hd (more & Hs & Hf)]. apply state_eq; [exact Hd|].
  destruct more as [|rq more]; [rewrite Hs; apply app_nil_r|].
  inversion Hf as [|? ? Hrq]. destruct Hrq.
Qed.

Lemma respects_bind_lift (P : request -> Prop) {A B} (x : result A)
      (k : A -> M B) :
  (forall a, x = Ok a -> respects P (k a)) -> respects P (bind (lift x) k).
Proof.
  intros Hk st r st'. unfold bind, lift. destruct x as [a|e]; intros H.
  - exact (Hk a eq_refl _ _ _ H).
  - inversion H. apply follows_refl.
Qed.

(** Without [extra] the loop body sends the request for the detail page
    and nothing else; it sends nothing when the snippet has no name. *)
Lemma search_body_plain (opts : options) (auth : option HTTPBasicAuth)
      (snippet : tag) (st st' : state) (e : pyval) (r : result Package) :
  getattr opts "extra" = Ok e -> truthy e = false ->
  search_body opts auth snippet st = (r, st') ->
  (st' = after_detail snippet st
   \/ (st' = st /\ r = Raise AttributeError
       /\ select_one snippet sel_name = None)).
Proof.
  intros He Ht. unfold search_body. unfold bind at 1. unfold lift at 1.
  destruct (select_one snippet sel_name) as [name_element|]; cbn [text_of].
  - unfold bind at 1. unfold session_get. rewrite send_eq.
    fold (detail_url snippet). fold (after_detail snippet st).
    intros H. left.
    match type of H with
    | ?tail (after_detail snippet st) = _ =>
        assert (respects nothing tail) as Htail
    end.
    { do 4 (apply respects_bind; [apply respects_lift | intros ?]).
      apply respects_bind_lift. intros x Hx.
      rewrite He in Hx. injection Hx as <-.
      rewrite Ht. apply respects_ret. }
    apply follows_nothing. exact (Htail _ _ _ H).
  - intros H. inversion H. right. repeat split.
Qed.

Lemma search_loop_plain (opts : options) (auth : option HTTPBasicAuth)
      (e : pyval) (snippets : list tag) (st : state) :
  getattr opts "extra" = Ok e -> truthy e = false ->
  exists k,
    (List.length (yielded (search_loop opts auth snippets st)) <= k)%nat
    /\ (k <= List.length snippets)%nat
    /\ sent (final (search_loop opts auth snippets st))
       = (sent st ++ map detail_request (firstn k snippets))%list.
Proof.
  intros He Ht. revert st.
  induction snippets as [|s l IH]; intros st.
  - exists 0%nat. simpl. rewrite app_nil_r. repeat split; lia.
  - simpl. destruct (search_body opts auth s st) as [[p|x] st1] eqn:E; simpl.
    + destruct (search_body_plain _ _ _ _ _ _ _ He Ht E) as [-> | (_ & Hr & _)];
        [|discriminate Hr].
      destruct (IH (after_detail s st)) as (k & Hy & Hk & Hs).
      exists (S k). split; [lia|]. split; [lia|].
      rewrite Hs. simpl. rewrite <- app_assoc. reflexivity.
    + destruct (search_body_plain _ _ _ _ _ _ _ He Ht E) as [-> | (-> & _ & _)].
      * exists 1%nat. simpl. repeat split; lia.
      * exists 0%nat. simpl. rewrite app_nil_r. repeat split; lia.
Qed.

Lemma get_links_state (pkg_url : string) (st st' : state)
      (r : result (option links)) :
  get_links pkg_url st = (r, st') ->
  st' = {| DEBUG := DEBUG st;
           sent := (sent st ++ [GET pkg_url [] [] None])%list |}.
Proof.
  unfold get_links, bind, session_get. rewrite send_eq.
  unfold try_except, lift, ret.
  destruct (resolve_links _) as [x|e]; [|destruct (exn_eqb e AttributeError)];
    intros H; inversion H; reflexivity.
Qed.

Lemma get_repo_info_state (repo : string) (auth : option HTTPBasicAuth)
      (st st' : state) (r : result (option RepoInfo)) :
  get_repo_info repo auth st = (r, st') ->
  st' = st
  \/ exists after,
      nth_error (PyStr.split_sep "github.com/" repo) 1 = Some after
      /\ st' = {| DEBUG := DEBUG st;
                  sent := (sent st ++ [api_request after auth])%list |}.
Proof.
  destruct (nth_error (PyStr.split_sep "github.com/" repo) 1) as [after|] eqn:E.
  - rewrite (get_repo_info_by_status repo after auth st E). cbv zeta.
    intros H. inversion H. right. exists after. split; reflexivity.
  - rewrite (get_repo_info_no_host repo auth st E).
    intros H. inversion H. left. reflexivity.
Qed.

End LoopRequests.

(** X7 -- With [opts.extra] false every yielded package keeps the default
    enrichment fields, and after the set-up the only requests are those for
    the detail pages, one per snippet in snippet order, up to the snippet at
    which the search ended. *)
Theorem plain_search_requests {C : Collaborators}
        (query : string) (opts : options) (debug0 : bool) (e : pyval)
        (snippets : list tag) (auth : option HTTPBasicAuth) (st0 : state) :
  getattr opts "extra" = Ok e -> truthy e = false ->
  search_setup query opts {| DEBUG := debug0; sent := [] |}
  = (Ok (snippets, auth), st0) ->
  let r := search query opts debug0 in
  (forall p, In p (yielded r) -> enrichment_default p)
  /\ exists k,
      (List.length (yielded r) <= k)%nat /\ (k <= List.length snippets)%nat
      /\ sent (final r)
         = (sent st0 ++ map detail_request (firstn k snippets))%list.
Proof.
  intros He Ht Hsetup r. split.
  - intros p Hin. apply search_yield in Hin as (a & s & st1 & st2 & _ & Hb).
    apply search_body_inv in Hb
      as (ne & v & dt & desc & pack & extra & _ & _ & Hpack & He' & Hp).
    rewrite He in He'. inversion He'; subst extra.
    apply Package_new_fields in Hpack as (_ & _ & _ & _ & Hdefault).
    destruct Hp as [[-> _] | [(_ & H & _) | (info & _ & H & _)]];
      [exact Hdefault | rewrite Ht in H; discriminate H
       | rewrite Ht in H; discriminate H].
  - unfold r, search. rewrite Hsetup.
    apply (search_loop_plain opts auth e snippets st0 He Ht).
Qed.

Lemma plain_search_requests_witness :
  let W := Stub.world (Stub.usual Stub.found_json) in
  exists k,
    sent (final (@search W "foo" (Stub.flags false false) false))
    = (sent (snd (@search_setup W "foo" (Stub.flags false false)
                    {| DEBUG := false; sent := [] |}))
       ++ map (@detail_request W)
              (firstn k (@collected_snippets W "foo" (Stub.flags false false) false)))%list.
Proof.
  intro W. unfold collected_snippets.
  destruct (@search_setup W "foo" (Stub.flags false false)
              {| DEBUG := false; sent := [] |}) as [[[snippets auth]|e] st] eqn:E;
    [|vm_compute in E; discriminate E].
  destruct (@plain_search_requests W "foo" (Stub.flags false false) false
              (PBool false) snippets auth st eq_refl eq_refl E)
    as (_ & k & _ & _ & Hs).
  exists k. exact Hs.
Defined.

(** X8 -- With [opts.extra] true a package that is yielded has cost the
    detail page twice: the loop body requests it for the version and
    [get_links] requests the same address again, before at most one request
    to the repository API. *)
Theorem detail_page_fetched_twice {C : Collaborators}
        (opts : options) (auth : option HTTPBasicAuth) (snippet : tag)
        (st st2 : state) (p : Package) (e : pyval) :
  getattr opts "extra" = Ok e -> truthy e = true ->
  search_body opts auth snippet st = (Ok p, st2) ->
  exists tail,
    sent st2
    = (sent st ++ detail_request snippet :: detail_request snippet :: tail)%list
    /\ (tail = [] \/ exists after, tail = [api_request after auth]).
Proof.
  intros He Ht Hb.
  apply search_body_inv in Hb
    as (ne & v & dt & desc & pack & extra & _ & _ & _ & He' & Hp).
  rewrite He in He'. inversion He'; subst extra.
  assert (exists x, get_github_info (detail_url snippet) auth
                      (after_detail snippet st) = (Ok x, st2)) as [x Hg].
  { destruct Hp as [[_ H] | [(_ & _ & H) | (info & _ & _ & H & _)]];
      [rewrite Ht in H; discriminate H | eexists; exact H | eexists; exact H]. }
  unfold get_github_info in Hg. step_ok Hg gh st1 Hl.
  apply get_links_state in Hl. subst st1.
  destruct gh as [l|].
  - apply get_repo_info_state in Hg as [-> | (after & _ & ->)].
    + exists []. split; [|left; reflexivity].
      simpl. rewrite <- app_assoc. reflexivity.
    + exists [api_request after auth]. split; [|right; exists after; reflexivity].
      simpl. rewrite <- !app_assoc. reflexivity.
  - inversion Hg; subst. exists []. split; [|left; reflexivity].
    simpl. rewrite <- app_assoc. reflexivity.
Qed.

Lemma detail_page_fetched_twice_witness :
  let sc := Stub.usual Stub.found_json in
  let dr := GET "https://pypi.org/project/foo/" [] [] None in
  exists tail,
    [dr; dr; GET "https://api.github.com/repos/owner/foo" [] [] None]
    = ([] ++ @detail_request (Stub.world sc) Stub.snippet_foo
          :: @detail_request (Stub.world sc) Stub.snippet_foo :: tail)%list
    /\ (tail = [] \/ exists after, tail = [api_request after None]).
Proof.
  intros sc dr.
  apply (@detail_page_fetched_twice (Stub.world sc) (Stub.flags false true) None
           Stub.snippet_foo {| DEBUG := false; sent := [] |}
           {| DEBUG := false;
              sent := [dr; dr;
                       GET "https://api.github.com/repos/owner/foo" [] [] None] |}
           (Stub.foo_package sc (PInt 12) (PInt 3) (PInt 0)
                             "https://github.com/owner/foo" true)
           (PBool true) eq_refl eq_refl eq_refl).
Defined.

(** ** The debug flag and the loop *)

Section DebugLoop.
Context {C : Collaborators}.

Lemma search_loop_yield_debug (opts : options) (auth : option HTTPBasicAuth)
      (snippets : list tag) (st : state) (p : Package) :
  In p (yielded (search_loop opts auth snippets st)) ->
  exists snippet st1 st2,
    DEBUG st1 = DEBUG st
    /\ search_body opts auth snippet st1 = (Ok p, st2).
Proof.
  revert st. induction snippets as [|s rest IH]; intros st; simpl.
  - intros [].
  - destruct (search_body opts auth s st) as [[q|e] st1] eqn:E; simpl.
    + intros [<- | Hin].
      * exists s, st, st1. split; [reflexivity | exact E].
      * destruct (IH st1 Hin) as (s' & sa & sb & Hd & Hb).
        exists s', sa, sb. split; [|exact Hb].
        rewrite Hd. exact (proj1 (respects_search_body opts auth s _ _ _ E)).
    + intros [].
Qed.

End DebugLoop.

(** X9 -- While the DEBUG flag is on (set by this search or left on by an
    earlier one) no enriched package is ever yielded: every package that
    comes out has the default enrichment fields, because the debug line
    after [set_gh_info] refers to a name that is bound nowhere. *)
Theorem no_enrichment_under_debug {C : Collaborators}
        (query : string) (opts : options) (debug0 : bool) (p : Package) :
  debug_flag opts || debug0 = true ->
  In p (yielded (search query opts debug0)) ->
  enrichment_default p.
Proof.
  intros Hflag. unfold search.
  destruct (search_setup query opts {| DEBUG := debug0; sent := [] |})
    as [[[snippets auth]|e] st] eqn:E; [|intros []].
  apply search_setup_follows in E as [Hd _]. simpl in Hd. rewrite Hflag in Hd.
  intros Hin.
  apply search_loop_yield_debug in Hin as (s & st1 & st2 & Hd1 & Hb).
  pose proof (proj1 (respects_search_body opts auth s _ _ _ Hb)) as Hd2.
  apply search_body_inv in Hb
    as (ne & v & dt & desc & pack & extra & _ & _ & Hpack & _ & Hp).
  apply Package_new_fields in Hpack as (_ & _ & _ & _ & Hdefault).
  destruct Hp as [[-> _] | [[-> _] | (info & _ & _ & _ & Hoff)]];
    [exact Hdefault | exact Hdefault|].
  rewrite Hd2, Hd1, Hd in Hoff. discriminate Hoff.
Qed.

Lemma no_enrichment_under_debug_witness :
  let sc := Stub.usual (Stub.status 500) in
  let p := Stub.foo_package sc (PInt 0) (PInt 0) (PInt 0) "" false in
  In p (yielded (@search (Stub.world sc) "foo" (Stub.flags true true) false))
  /\ @enrichment_default (Stub.world sc) p.
Proof.
  intros sc p.
  assert (In p (yielded (@search (Stub.world sc) "foo"
                           (Stub.flags true true) false)))
    as Hin by exact (or_introl eq_refl).
  split; [exact Hin|].
  exact (@no_enrichment_under_debug (Stub.world sc) "foo" (Stub.flags true true)
           false p eq_refl Hin).
Defined.

(** X10 -- With the DEBUG flag on and [opts.extra] true, a snippet whose
    extraction succeeds and whose lookup returns an info dict makes the
    loop body raise NameError instead of yielding the package; all three
    requests of the body have been sent by then. *)
Theorem debug_enrichment_raises_NameError {C : Collaborators}
        (opts : options) (auth : option HTTPBasicAuth) (snippet : tag)
        (st st2 : state) (e : pyval) (name_element desc_element : tag)
        (v dt : string) (pack : Package) (info : RepoInfo) :
  DEBUG st = true ->
  getattr opts "extra" = Ok e -> truthy e = true ->
  select_one snippet sel_name = Some name_element ->
  extract_version (detail_page snippet st) = Ok v ->
  created_datetime snippet = Ok dt ->
  select_one snippet sel_description = Some desc_element ->
  Package_new (PyStr.collapse_ws (PyStr.strip (tag_text name_element))) v
              (PyStr.collapse_ws dt)
              (PyStr.collapse_ws (PyStr.strip (tag_text desc_element)))
              (Some (detail_url snippet)) = Ok pack ->
  get_github_info (detail_url snippet) auth (after_detail snippet st)
  = (Ok (Some info), st2) ->
  search_body opts auth snippet st = (Raise NameError, st2).
Proof.
  intros HD He Ht Hname Hv Hdt Hdesc Hpack Hinfo.
  assert (DEBUG st2 = true) as HD2.
  { rewrite (proj1 (respects_get_github_info _ _ _ _ _ Hinfo)). exact HD. }
  unfold search_body, bind, lift, session_get. rewrite Hname. cbn [text_of].
  rewrite send_eq. fold (detail_url snippet). fold (detail_page snippet st).
  rewrite Hv, Hdt, Hdesc. cbn [text_of]. rewrite Hpack, He, Ht.
  fold (after_detail snippet st). rewrite Hinfo.
  unfold get_DEBUG. rewrite HD2. reflexivity.
Qed.

Lemma debug_enrichment_raises_NameError_witness :
  let sc := Stub.usual Stub.found_json in
  fst (@search_body (Stub.world sc) (Stub.flags true true) None Stub.snippet_foo
         {| DEBUG := true; sent := [] |})
  = Raise NameError.
Proof.
  intros sc.
  rewrite (@debug_enrichment_raises_NameError (Stub.world sc)
             (Stub.flags true true) None Stub.snippet_foo
             {| DEBUG := true; sent := [] |}
             {| DEBUG := true;
                sent := [GET "https://pypi.org/project/foo/" [] [] None;
                         GET "https://pypi.org/project/foo/" [] [] None;
                         GET "https://api.github.com/repos/owner/foo" [] [] None] |}
             (PBool true) (Stub.leaf "  foo  " [])
             (Stub.leaf "a   small package " [])
             "1.0" "2023-05-01T00:00:00+0000"
             (Stub.foo_package sc (PInt 0) (PInt 0) (PInt 0) "" false)
             (info_of_body [("stargazers_count", PInt 12); ("forks_count", PInt 3)]
                           "https://github.com/owner/foo")
             eq_refl eq_refl eq_refl eq_refl eq_refl eq_refl eq_refl eq_refl
             eq_refl).
  reflexivity.
Defined.

(** ** The failures of the link resolver *)

(** X11 -- [get_links] answers None, after its one request, when the
    primary slot is missing and when the primary link contains issues and
    the alternate slot is missing (the AttributeError is caught); a slot
    whose anchor has no href is not covered: the KeyError leaves
    [get_links]. *)
Theorem get_links_failures {C : Collaborators} (pkg_url : string) (st : state) :
  let soup := BeautifulSoup (text (server (sent st) (GET pkg_url [] [] None))) in
  let st' := {| DEBUG := DEBUG st;
                sent := (sent st ++ [GET pkg_url [] [] None])%list |} in
  (select_one soup csspath = None -> get_links pkg_url st = (Ok None, st'))
  /\ (forall primary href0,
        select_one soup csspath = Some primary ->
        assoc "href" (tag_attrs primary) = Some href0 ->
        PyStr.contains "issues" href0 = true ->
        select_one soup csspath_alt = None ->
        get_links pkg_url st = (Ok None, st'))
  /\ (forall primary,
        select_one soup csspath = Some primary ->
        assoc "href" (tag_attrs primary) = None ->
        get_links pkg_url st = (Raise KeyError, st'))
  /\ (forall primary href0 alt,
        select_one soup csspath = Some primary ->
        assoc "href" (tag_attrs primary) = Some href0 ->
        PyStr.contains "issues" href0 = true ->
        select_one soup csspath_alt = Some alt ->
        assoc "href" (tag_attrs alt) = None ->
        get_links pkg_url st = (Raise KeyError, st')).
Proof.
  intros soup st'.
  unfold get_links, bind, session_get. rewrite send_eq. fold soup. fold st'.
  unfold try_except, lift, resolve_links.
  split; [|split; [|split]].
  - intros ->. reflexivity.
  - intros primary href0 -> Hh Hi ->. cbn [attrs_of]. unfold getitem.
    rewrite Hh, Hi. reflexivity.
  - intros primary -> Hh. cbn [attrs_of]. unfold getitem. rewrite Hh. reflexivity.
  - intros primary href0 alt -> Hh Hi -> Ha. cbn [attrs_of]. unfold getitem.
    rewrite Hh, Hi, Ha. reflexivity.
Qed.

Lemma get_links_failures_witness :
  @get_links (Stub.world Stub.no_challenge) "https://pypi.org/project/foo/"
     {| DEBUG := false; sent := [] |}
  = (Ok None,
     {| DEBUG := false;
        sent := [GET "https://pypi.org/project/foo/" [] [] None] |}).
Proof.
  apply (proj1 (@get_links_failures (Stub.world Stub.no_challenge)
                  "https://pypi.org/project/foo/"
                  {| DEBUG := false; sent := [] |})).
  reflexivity.
Defined.

(** ** The repository name in a link *)

Section Hosts.

Lemma append_assoc (a b c : string) : (a ++ b) ++ c = a ++ (b ++ c).
Proof. induction a as [|x a IH]; simpl; [reflexivity | rewrite IH; reflexivity]. Qed.

Lemma append_nil_r (a : string) : a ++ "" = a.
Proof. induction a as [|x a IH]; simpl; [reflexivity | rewrite IH; reflexivity]. Qed.

Lemma rev_string_app (acc s : string) :
  PyStr.rev_string acc s = PyStr.rev_string "" s ++ acc.
Proof.
  revert acc. induction s as [|c s IH]; intros acc; simpl; [reflexivity|].
  rewrite (IH (String c acc)), (IH (String c "")), append_assoc. reflexivity.
Qed.

Lemma rev_string_push (c : ascii) (cur t : string) :
  PyStr.rev_string "" (String c cur) ++ t = PyStr.rev_string "" cur ++ String c t.
Proof.
  simpl. rewrite (rev_string_app (String c "") cur), append_assoc. reflexivity.
Qed.

Lemma split_from_cons (sep cur : string) (c : ascii) (s : string) :
  PyStr.split_from sep O cur (String c s)
  = if String.prefix sep (String c s)
    then PyStr.rev_string "" cur
           :: PyStr.split_from sep (Nat.pred (String.length sep)) "" s
    else PyStr.split_from sep O (String c cur) s.
Proof. reflexivity. Qed.

(** A string without the separator is one field. *)
Lemma split_from_absent (sep s cur : string) :
  PyStr.contains sep s = false ->
  PyStr.split_from sep O cur s = [PyStr.rev_string "" cur ++ s].
Proof.
  revert cur. induction s as [|c s IH]; intros cur.
  - intros _. simpl. rewrite append_nil_r. reflexivity.
  - rewrite contains_cons, split_from_cons.
    destruct (String.prefix sep (String c s)); [discriminate|].
    intros H. rewrite (IH (String c cur) H), rev_string_push. reflexivity.
Qed.

Lemma split_sep_absent (sep s : string) :
  PyStr.contains sep s = false -> PyStr.split_sep sep s = [s].
Proof. intros H. unfold PyStr.split_sep. rewrite (split_from_absent _ _ _ H). reflexivity. Qed.

Lemma prefix_empty (x : string) : String.prefix "" x = true.
Proof. destruct x; reflexivity. Qed.

Lemma prefix_shorten (p x y : string) :
  String.prefix p (x ++ y) = true ->
  (String.length p <= String.length x)%nat ->
  String.prefix p x = true.
Proof.
  revert x. induction p as [|a p IH]; intros x H Hlen.
  - apply prefix_empty.
  - destruct x as [|b x]; simpl in Hlen; [lia|].
    change (String b x ++ y) with (String b (x ++ y)) in H.
    rewrite prefix_cons in *. destruct (ascii_dec a b); [|discriminate H].
    apply IH; [exact H | lia].
Qed.

(** The text before the first occurrence of the host is the first field;
    the split goes on after the host. *)
Lemma split_from_host (pre rest cur : string) :
  PyStr.contains "github.com/" (pre ++ "github.com") = false ->
  PyStr.split_from "github.com/" O cur (pre ++ "github.com/" ++ rest)
  = (PyStr.rev_string "" cur ++ pre)
      :: PyStr.split_from "github.com/" O "" rest.
Proof.
  revert cur. induction pre as [|c pre IH]; intros cur H.
  - change ("" ++ "github.com/" ++ rest)
      with (String "g" ("ithub.com/" ++ rest)).
    rewrite split_from_cons.
    change (String "g" ("ithub.com/" ++ rest)) with ("github.com/" ++ rest).
    rewrite prefix_app, append_nil_r. reflexivity.
  - change (String c pre ++ "github.com") with (String c (pre ++ "github.com")) in H.
    rewrite contains_cons in H.
    destruct (String.prefix "github.com/" (String c (pre ++ "github.com"))) eqn:E;
      [discriminate H|].
    change (String c pre ++ "github.com/" ++ rest)
      with (String c (pre ++ "github.com/" ++ rest)).
    rewrite split_from_cons.
    destruct (String.prefix "github.com/" (String c (pre ++ "github.com/" ++ rest)))
      eqn:E2.
    + exfalso.
      assert (String.prefix "github.com/" (String c (pre ++ "github.com")) = true)
        as E3; [|rewrite E3 in E; discriminate E].
      apply (prefix_shorten _ _ ("/" ++ rest)).
      * change (String c (pre ++ "github.com") ++ "/" ++ rest)
          with (String c ((pre ++ "github.com") ++ "/" ++ rest)).
        rewrite append_assoc. exact E2.
      * simpl. rewrite length_app. simpl. lia.
    + rewrite (IH (String c cur) H), rev_string_push. reflexivity.
Qed.

Lemma split_sep_host (pre rest : string) :
  PyStr.contains "github.com/" (pre ++ "github.com") = false ->
  PyStr.contains "github.com/" rest = false ->
  nth_error (PyStr.split_sep "github.com/" (pre ++ "github.com/" ++ rest)) 1
  = Some rest.
Proof.
  intros Hpre Hrest. unfold PyStr.split_sep.
  rewrite (split_from_host pre rest "" Hpre).
  rewrite (split_from_absent _ _ _ Hrest). reflexivity.
Qed.

End Hosts.

(** X12 -- A repository link that does not contain github.com/ (a link
    with github elsewhere in it, such as a github.io page, passes the test
    of [get_links]) gives the default info dict without any request to the
    API: the IndexError of the split is caught. *)
Theorem repo_link_without_host {C : Collaborators} (repo : string)
        (auth : option HTTPBasicAuth) (st : state) :
  PyStr.contains "github.com/" repo = false ->
  get_repo_info repo auth st = (Ok (Some default_info), st).
Proof.
  intros H. apply get_repo_info_no_host.
  rewrite (split_sep_absent _ _ H). reflexivity.
Qed.

Lemma repo_link_without_host_witness :
  @get_repo_info (Stub.world (Stub.usual Stub.found_json))
     "https://owner.github.io/foo" None {| DEBUG := false; sent := [] |}
  = (Ok (Some default_info), {| DEBUG := false; sent := [] |}).
Proof.
  apply (@repo_link_without_host (Stub.world (Stub.usual Stub.found_json))
           "https://owner.github.io/foo" None {| DEBUG := false; sent := [] |}).
  reflexivity.
Defined.

(** X13 -- For a link whose first github.com/ is followed by a name without
    a further github.com/, [get_repo_info] sends exactly one request: a GET,
    with the credentials it was given, to https://api.github.com/repos/
    followed by that name without its trailing slashes.  The info dict has
    set true exactly when the answer has status 200 and a body that parses
    to an object; its figures are then those of the body (0 for a missing
    key) and its link is the link given. *)
Theorem repo_api_request {C : Collaborators} (pre rest : string)
        (auth : option HTTPBasicAuth) (st : state) :
  PyStr.contains "github.com/" (pre ++ "github.com") = false ->
  PyStr.contains "github.com/" rest = false ->
  let repo := pre ++ "github.com/" ++ rest in
  let rq := GET ("https://api.github.com/repos/" ++ PyStr.rstrip_char "/" rest)
                [] [] auth in
  let r := server (sent st) rq in
  snd (get_repo_info repo auth st)
  = {| DEBUG := DEBUG st; sent := (sent st ++ [rq])%list |}
  /\ ((exists info, fst (get_repo_info repo auth st) = Ok (Some info)
                    /\ info_set_flag info = true)
      <-> (status_code r = 200 /\ exists d, json_body r = Some (PDict d)))
  /\ (forall d, status_code r = 200 -> json_body r = Some (PDict d) ->
        fst (get_repo_info repo auth st)
        = Ok (Some {| info_stars := dict_get d "stargazers_count" (PInt 0);
                      info_forks := dict_get d "forks_count" (PInt 0);
                      info_watchers := dict_get d "watchers_count" (PInt 0);
                      info_set_flag := true;
                      info_github_link := repo |})).
Proof.
  intros Hpre Hrest repo rq r.
  pose proof (split_sep_host pre rest Hpre Hrest) as Hafter. fold repo in Hafter.
  split; [|split].
  - rewrite (get_repo_info_by_status repo rest auth st Hafter). reflexivity.
  - exact (repo_info_set_iff repo rest auth st Hafter).
  - intros d Hs Hb.
    rewrite (get_repo_info_by_status repo rest auth st Hafter). cbv zeta.
    fold (api_request rest auth). change (api_request rest auth) with rq.
    fold r. rewrite Hs, Hb. reflexivity.
Qed.

Lemma repo_api_request_witness :
  snd (@get_repo_info (Stub.world (Stub.usual Stub.found_json))
         "https://github.com/owner/foo/" None {| DEBUG := false; sent := [] |})
  = {| DEBUG := false;
       sent := [GET "https://api.github.com/repos/owner/foo" [] [] None] |}.
Proof.
  apply (proj1 (@repo_api_request (Stub.world (Stub.usual Stub.found_json))
                  "https://" "owner/foo/" None {| DEBUG := false; sent := [] |}
                  eq_refl eq_refl)).
Defined.

(** ** The failures of the extraction *)



(** ** The shape of the strings of a package *)

Section Shapes.
Context {C : Collaborators}.

Lemma rev_string_no_space (acc s : string) :
  no_space acc = true -> no_space s = true ->
  no_space (PyStr.rev_string acc s) = true.
Proof.
  revert acc. unfold no_space.
  induction s as [|c s IH]; intros acc Ha Hs; simpl in *; [exact Ha|].
  apply andb_true_iff in Hs as [Hc Hs].
  apply IH; [simpl; rewrite Hc; exact Ha | exact Hs].
Qed.

Lemma rev_string_nonempty (acc s : string) :
  acc <> "" \/ s <> "" -> PyStr.rev_string acc s <> "".
Proof.
  revert acc. induction s as [|c s IH]; intros acc H; simpl.
  - destruct H as [H | H]; [exact H | destruct (H eq_refl)].
  - apply IH. left. discriminate.
Qed.

(** The tokens of [split()] are non-empty and free of whitespace. *)
Lemma split_ws_from_tokens (s cur : string) :
  no_space cur = true ->
  Forall (fun t => t <> "" /\ no_space t = true) (PyStr.split_ws_from cur s).
Proof.
  revert cur. induction s as [|c s IH]; intros cur Hcur; simpl.
  - destruct cur as [|x cur]; constructor; [|constructor].
    split; [apply rev_string_nonempty; right; discriminate|].
    apply rev_string_no_space; [reflexivity | exact Hcur].
  - destruct (PyStr.isspace c) eqn:Ec.
    + destruct cur as [|x cur]; [apply IH; reflexivity|].
      constructor; [|apply IH; reflexivity].
      split; [apply rev_string_nonempty; right; discriminate|].
      apply rev_string_no_space; [reflexivity | exact Hcur].
    + apply IH. unfold no_space in *. simpl. rewrite Ec. exact Hcur.
Qed.

Lemma index_last_in {A} (l : list A) (x : A) : index_last l = Ok x -> In x l.
Proof.
  intros H. apply index_last_snoc in H as [front ->].
  apply in_or_app. right. left. reflexivity.
Qed.

Lemma extract_version_shape (page : tag) (v : string) :
  extract_version page = Ok v -> v <> "" /\ no_space v = true.
Proof.
  unfold extract_version.
  destruct (select_one page sel_version) as [header|].
  - intros H. apply index_last_in in H.
    pose proof (split_ws_from_tokens (tag_text header) "" eq_refl) as Hall.
    rewrite Forall_forall in Hall. exact (Hall v H).
  - intros H. inversion H. split; [discriminate | reflexivity].
Qed.

(** Whitespace runs collapse to single spaces. *)
Lemma collapse_single_spaced (b : bool) (t : string) :
  single_spaced b (PyStr.collapse_from b t) = true.
Proof.
  revert b. induction t as [|c t IH]; intros b; simpl; [reflexivity|].
  destruct (PyStr.isspace c) eqn:Ec.
  - destruct b; [apply IH|]. simpl. apply IH.
  - simpl. destruct (Ascii.eqb_spec c " ") as [->|_]; [discriminate Ec|].
    rewrite Ec. simpl. apply IH.
Qed.

Lemma lstrip_head_clean (s : string) : head_clean (PyStr.lstrip s).
Proof.
  induction s as [|c s IH]; simpl; [exact I|].
  destruct (PyStr.isspace c) eqn:Ec; [exact IH | exact Ec].
Qed.

Lemma rstrip_head_clean (t : string) :
  head_clean t -> head_clean (PyStr.rstrip_with PyStr.isspace t).
Proof.
  destruct t as [|c t]; simpl; [auto|]. intros Hc.
  destruct (PyStr.rstrip_with PyStr.isspace t); [|exact Hc].
  rewrite Hc. exact Hc.
Qed.

Lemma last_char_cons (x c : ascii) (t : string) :
  last_char t = Some c -> last_char (String x t) = Some c.
Proof. destruct t; [discriminate | auto]. Qed.

Lemma last_char_none (t : string) : last_char t = None -> t = "".
Proof.
  induction t as [|x t IH]; [reflexivity|]. destruct t as [|y t].
  - discriminate.
  - intros H. specialize (IH H). discriminate IH.
Qed.

Lemma rstrip_tail_clean (t : string) :
  tail_clean (PyStr.rstrip_with PyStr.isspace t).
Proof.
  unfold tail_clean. induction t as [|c t IH]; simpl; [exact I|].
  destruct (PyStr.rstrip_with PyStr.isspace t) as [|y r] eqn:E.
  - destruct (PyStr.isspace c) eqn:Ec; simpl; [exact I | exact Ec].
  - destruct (last_char (String y r)) as [z|] eqn:El.
    + rewrite (last_char_cons c z _ El). exact IH.
    + apply last_char_none in El. discriminate El.
Qed.

Lemma collapse_head_clean (t : string) :
  head_clean t -> PyStr.collapse_from false t = PyStr.collapse_from true t.
Proof. destruct t as [|c t]; simpl; [auto|]. intros ->. reflexivity. Qed.

Lemma collapse_last_char (t : string) (c : ascii) (b : bool) :
  last_char t = Some c -> PyStr.isspace c = false ->
  last_char (PyStr.collapse_from b t) = Some c.
Proof.
  intros Hl Hc. revert b. induction t as [|x t IH]; intros b; [discriminate Hl|].
  destruct t as [|y t].
  - simpl in Hl. inversion Hl; subst x. simpl. rewrite Hc. reflexivity.
  - assert (last_char (String y t) = Some c) as Hl' by exact Hl.
    specialize (IH Hl').
    change (PyStr.collapse_from b (String x (String y t)))
      with (if PyStr.isspace x
            then if b then PyStr.collapse_from true (String y t)
                 else String " " (PyStr.collapse_from true (String y t))
            else String x (PyStr.collapse_from false (String y t))).
    destruct (PyStr.isspace x); [destruct b|];
      [apply IH | apply last_char_cons, IH | apply last_char_cons, IH].
Qed.

Lemma normalised_collapse_strip (s : string) :
  normalised (PyStr.collapse_ws (PyStr.strip s)).
Proof.
  unfold normalised, PyStr.collapse_ws, PyStr.strip.
  set (t := PyStr.rstrip_with PyStr.isspace (PyStr.lstrip s)).
  assert (head_clean t) as Hh by apply rstrip_head_clean, lstrip_head_clean.
  assert (tail_clean t) as Ht by apply rstrip_tail_clean.
  split.
  - rewrite (collapse_head_clean t Hh). apply collapse_single_spaced.
  - unfold tail_clean in Ht. destruct (last_char t) as [c|] eqn:El.
    + rewrite (collapse_last_char t c false El Ht). exact Ht.
    + apply last_char_none in El. rewrite El. exact I.
Qed.

(** The strings a completed loop body put into its package. *)
Lemma search_body_strings (opts : options) (auth : option HTTPBasicAuth)
      (snippet : tag) (st st2 : state) (p : Package) :
  search_body opts auth snippet st = (Ok p, st2) ->
  exists name_element desc_element dt,
    select_one snippet sel_name = Some name_element
    /\ select_one snippet sel_description = Some desc_element
    /\ created_datetime snippet = Ok dt
    /\ name p = PyStr.collapse_ws (PyStr.strip (tag_text name_element))
    /\ description p = PyStr.collapse_ws (PyStr.strip (tag_text desc_element))
    /\ released p = PyStr.collapse_ws dt
    /\ extract_version (detail_page snippet st) = Ok (version p).
Proof.
  unfold search_body. fold (detail_url snippet). intros H.
  step_ok H name_text st1 Hn. apply lift_ok_inv in Hn as [Hn ->].
  destruct (select_one snippet sel_name) as [name_element|] eqn:En;
    [|discriminate Hn].
  simpl in Hn. inversion Hn; subst name_text; clear Hn.
  step_ok H resp st3 Hr. unfold session_get in Hr. rewrite send_eq in Hr.
  inversion Hr; subst resp st3; clear Hr.
  step_ok H v st4 Hv. apply lift_ok_inv in Hv as [Hv ->].
  step_ok H dt st5 Hdt. apply lift_ok_inv in Hdt as [Hdt ->].
  step_ok H desc_text st6 Hde. apply lift_ok_inv in Hde as [Hde ->].
  destruct (select_one snippet sel_description) as [desc_element|] eqn:Ed;
    [|discriminate Hde].
  simpl in Hde. inversion Hde; subst desc_text; clear Hde.
  step_ok H pack st7 Hp. apply lift_ok_inv in Hp as [Hp ->].
  apply Package_new_fields in Hp as (Hpn & Hpv & Hpr & Hpd & _).
  assert (name p = name pack /\ version p = version pack
          /\ released p = released pack /\ description p = description pack)
    as (E1 & E2 & E3 & E4).
  { step_ok H extra st8 He. apply lift_ok_inv in He as [He ->].
    destruct (truthy extra).
    - step_ok H info st9 Hi. destruct info as [info|].
      + step_ok H debug st10 Hg. destruct debug; [discriminate H|].
        inversion H; subst. repeat split; reflexivity.
      + inversion H; subst. repeat split; reflexivity.
    - inversion H; subst. repeat split; reflexivity. }
  exists name_element, desc_element, dt.
  rewrite E1, E2, E3, E4, Hpn, Hpv, Hpr, Hpd.
  split; [reflexivity|]. split; [reflexivity|]. split; [exact Hdt|].
  split; [reflexivity|]. split; [reflexivity|]. split; [reflexivity | exact Hv].
Qed.

End Shapes.

(** X15 -- The version of a yielded package is never empty and never
    contains whitespace: it is one token of the header, or Unknown. *)
Theorem version_is_one_token {C : Collaborators}
        (query : string) (opts : options) (debug0 : bool) (p : Package) :
  In p (yielded (search query opts debug0)) ->
  version p <> "" /\ no_space (version p) = true.
Proof.
  intros Hin. apply search_yield in Hin as (auth & s & st1 & st2 & _ & Hb).
  apply search_body_strings in Hb as (ne & de & dt & _ & _ & _ & _ & _ & _ & Hv).
  exact (extract_version_shape _ _ Hv).
Qed.

Lemma version_is_one_token_witness :
  let sc := Stub.usual Stub.found_json in
  let p := Stub.foo_package sc (PInt 12) (PInt 3) (PInt 0)
                            "https://github.com/owner/foo" true in
  In p (yielded (@search (Stub.world sc) "foo" (Stub.flags false true) false))
  /\ @version (Stub.world sc) p <> ""
  /\ no_space (@version (Stub.world sc) p) = true.
Proof.
  intros sc p.
  assert (In p (yielded (@search (Stub.world sc) "foo"
                           (Stub.flags false true) false)))
    as Hin by exact (or_introl eq_refl).
  split; [exact Hin|].
  exact (@version_is_one_token (Stub.world sc) "foo" (Stub.flags false true)
           false p Hin).
Defined.

(** X16 -- The name and the description of a yielded package are
    whitespace-normalised texts of the snippet's name and description
    elements: no whitespace at either end, and inside only single spaces
    (every run of blanks, tabs or line breaks has become one space). *)
Theorem name_and_description_normalised {C : Collaborators}
        (query : string) (opts : options) (debug0 : bool) (p : Package) :
  In p (yielded (search query opts debug0)) ->
  normalised (name p) /\ normalised (description p)
  /\ exists snippet name_element desc_element,
      In snippet (collected_snippets query opts debug0)
      /\ select_one snippet sel_name = Some name_element
      /\ select_one snippet sel_description = Some desc_element
      /\ name p = PyStr.collapse_ws (PyStr.strip (tag_text name_element))
      /\ description p
         = PyStr.collapse_ws (PyStr.strip (tag_text desc_element)).
Proof.
  intros Hin. apply search_yield in Hin as (auth & s & st1 & st2 & Hs & Hb).
  apply search_body_strings in Hb
    as (ne & de & dt & Hn & Hd & _ & En & Ed & _ & _).
  split; [rewrite En; apply normalised_collapse_strip|].
  split; [rewrite Ed; apply normalised_collapse_strip|].
  exists s, ne, de. repeat split; assumption.
Qed.

Lemma name_and_description_normalised_witness :
  let sc := Stub.usual Stub.found_json in
  let p := Stub.foo_package sc (PInt 12) (PInt 3) (PInt 0)
                            "https://github.com/owner/foo" true in
  In p (yielded (@search (Stub.world sc) "foo" (Stub.flags false true) false))
  /\ normalised (@name (Stub.world sc) p)
  /\ normalised (@description (Stub.world sc) p).
Proof.
  intros sc p.
  assert (In p (yielded (@search (Stub.world sc) "foo"
                           (Stub.flags false true) false)))
    as Hin by exact (or_introl eq_refl).
  split; [exact Hin|].
  destruct (@name_and_description_normalised (Stub.world sc) "foo"
              (Stub.flags false true) false p Hin) as (H1 & H2 & _).
  split; assumption.
Defined.

(** ** The fields of a yielded package *)

Section Fields.
Context {C : Collaborators}.

Lemma Package_new_link_date (n v r d : string) (l : string) (p : Package) :
  Package_new n v r d (Some l) = Ok p ->
  strptime (released p) "%Y-%m-%dT%H:%M:%S%z" = Some (released_date p)
  /\ link p = (if String.eqb l "" then "https://pypi.org/project/" ++ name p
               else l).
Proof.
  unfold Package_new. destruct (strptime r _) as [x|] eqn:E; [|discriminate].
  intros H. inversion H; subst. simpl. split; [exact E | reflexivity].
Qed.

Lemma get_repo_info_filled (repo : string) (auth : option HTTPBasicAuth)
      (st st' : state) (info : RepoInfo) :
  get_repo_info repo auth st = (Ok (Some info), st') ->
  info = default_info
  \/ (repo <> "" /\ exists d, info = info_of_body d repo).
Proof.
  destruct (nth_error (PyStr.split_sep "github.com/" repo) 1) as [after|] eqn:E.
  - rewrite (get_repo_info_by_status repo after auth st E). cbv zeta.
    set (r := server (sent st) (api_request after auth)).
    destruct ((status_code r =? 401) || (status_code r =? 404)
              || (status_code r =? 403)).
    + intros H. inversion H. left. reflexivity.
    + destruct (status_code r =? 200); [|discriminate].
      destruct (json_body r) as [[| | | | | |d]|]; intros H; inversion H;
        try (left; reflexivity).
      right. split; [|exists d; reflexivity].
      intros ->. discriminate E.
  - rewrite (get_repo_info_no_host repo auth st E).
    intros H. inversion H. left. reflexivity.
Qed.

Lemma get_github_info_filled (repolink : string) (auth : option HTTPBasicAuth)
      (st st' : state) (info : RepoInfo) :
  get_github_info repolink auth st = (Ok (Some info), st') ->
  info = default_info
  \/ exists d repo, repo <> "" /\ info = info_of_body d repo.
Proof.
  unfold get_github_info. intros H. step_ok H gh st1 Hl.
  destruct gh as [l|]; [|discriminate H].
  apply get_repo_info_filled in H as [H | (Hne & d & H)]; [left; exact H|].
  right. exists d, (github l). split; assumption.
Qed.

End Fields.


(** ** The states of a run *)

Section RunStates.
Context {C : Collaborators}.

(** Yield number [i] is made from snippet number [i], by the loop body
    started in the state the run has reached by then. *)
Lemma search_loop_nth (opts : options) (auth : option HTTPBasicAuth)
      (snippets : list tag) (st : state) (i : nat) (p : Package) :
  nth_error (yielded (search_loop opts auth snippets st)) i = Some p ->
  exists s,
    nth_error snippets i = Some s
    /\ search_body opts auth s (state_at opts auth snippets st i)
       = (Ok p, state_at opts auth snippets st (S i))
    /\ follows (carries auth) (state_at opts auth snippets st (S i))
               (final (search_loop opts auth snippets st)).
Proof.
  revert st i. induction snippets as [|s rest IH]; intros st i.
  - destruct i; discriminate.
  - cbn [search_loop].
    destruct (search_body opts auth s st) as [[q|e] st1] eqn:E;
      cbn [yielded final]; [|destruct i; discriminate].
    destruct i as [|i].
    + cbn [nth_error]. intros H. inversion H; subst q. exists s.
      split; [reflexivity|].
      cbn [state_at]. rewrite E. cbn [snd].
      split; [reflexivity | apply search_loop_follows].
    + cbn [nth_error]. intros H.
      destruct (IH st1 i H) as (s' & Hs & Hb & Hf).
      exists s'. split; [exact Hs|].
      change (state_at opts auth (s :: rest) st (S i))
        with (state_at opts auth rest (snd (search_body opts auth s st)) i).
      change (state_at opts auth (s :: rest) st (S (S i)))
        with (state_at opts auth rest (snd (search_body opts auth s st)) (S i)).
      rewrite E. cbn [snd]. split; [exact Hb | exact Hf].
Qed.

Lemma search_nth (query : string) (opts : options) (debug0 : bool)
      (i : nat) (p : Package) :
  nth_error (yielded (search query opts debug0)) i = Some p ->
  exists s,
    nth_error (collected_snippets query opts debug0) i = Some s
    /\ search_body opts (auth_of opts) s (body_state query opts debug0 i)
       = (Ok p, body_state query opts debug0 (S i))
    /\ exists rest,
        sent (final (search query opts debug0))
        = (sent (body_state query opts debug0 (S i)) ++ rest)%list.
Proof.
  unfold search, body_state, collected_snippets, setup_state.
  destruct (search_setup query opts {| DEBUG := debug0; sent := [] |})
    as [[[snippets auth]|e] st0] eqn:E; cbn [snd yielded final].
  - pose proof (search_setup_auth _ _ _ _ _ _ E) as ->.
    intros H. apply search_loop_nth in H as (s & Hs & Hb & Hf).
    exists s. split; [exact Hs|]. split; [exact Hb|].
    destruct Hf as [_ (more & Hm & _)]. exists more. exact Hm.
  - destruct i; discriminate.
Qed.

(** A completed loop body has sent the request for the detail page first. *)
Lemma search_body_log (opts : options) (auth : option HTTPBasicAuth)
      (s : tag) (st st2 : state) (p : Package) :
  search_body opts auth s st = (Ok p, st2) ->
  exists tail, sent st2 = (sent st ++ detail_request s :: tail)%list.
Proof.
  intros Hb. pose proof Hb as Hinv.
  apply search_body_inv in Hinv
    as (ne & v & dt & desc & pack & extra & _ & _ & _ & He & Hp).
  assert (forall x, get_github_info (detail_url s) auth (after_detail s st)
                    = (x, st2) ->
                    exists tail, sent st2 = (sent st ++ detail_request s :: tail)%list)
    as Hg.
  { intros x H. apply respects_get_github_info in H as [_ (more & Hm & _)].
    exists more. rewrite Hm. cbn [after_detail sent].
    rewrite <- app_assoc. reflexivity. }
  destruct Hp as [[_ Ht] | [(_ & _ & H) | (info & _ & _ & H & _)]].
  - destruct (search_body_plain _ _ _ _ _ _ _ He Ht Hb) as [-> | (_ & Hr & _)];
      [|discriminate Hr].
    exists []. reflexivity.
  - exact (Hg _ H).
  - exact (Hg _ H).
Qed.

(** The dict of a successful lookup comes from the answer to the API
    request, which follows the request of [get_links]. *)
Lemma get_github_info_filled_at (url : string) (auth : option HTTPBasicAuth)
      (st st' : state) (info : RepoInfo) :
  get_github_info url auth st = (Ok (Some info), st') ->
  info = default_info
  \/ exists after d,
      nth_error (PyStr.split_sep "github.com/" (info_github_link info)) 1
      = Some after
      /\ status_code (server (sent st ++ [GET url [] [] None])
                             (api_request after auth)) = 200
      /\ json_body (server (sent st ++ [GET url [] [] None])
                           (api_request after auth)) = Some (PDict d)
      /\ info = info_of_body d (info_github_link info).
Proof.
  unfold get_github_info. intros H. step_ok H gh st1 Hl.
  apply get_links_state in Hl. subst st1.
  destruct gh as [l|]; [|discriminate H].
  destruct (nth_error (PyStr.split_sep "github.com/" (github l)) 1)
    as [after|] eqn:E.
  - rewrite (get_repo_info_by_status (github l) after auth _ E) in H.
    cbv zeta in H. cbn [sent] in H.
    set (r := server (sent st ++ [GET url [] [] None]) (api_request after auth)) in *.
    destruct ((status_code r =? 401) || (status_code r =? 404)
              || (status_code r =? 403)).
    + inversion H. left. reflexivity.
    + destruct (Z.eqb_spec (status_code r) 200) as [E200|]; [|discriminate H].
      destruct (json_body r) as [[| | | | | |d]|] eqn:Eb; inversion H;
        try (left; reflexivity).
      subst info. right. exists after, d. cbn [info_of_body info_github_link].
      split; [exact E|]. split; [exact E200|]. split; [exact Eb | reflexivity].
  - rewrite (get_repo_info_no_host (github l) auth _ E) in H.
    inversion H. left. reflexivity.
Qed.

End RunStates.

(** C7 -- Yield number [i] of a search has the version of the detail page of
    snippet number [i], as the index served it in this run: the request for
    the page is in the log of the search right after the requests sent
    before the loop body started, and the version is extracted from the
    response to it.  It is the last whitespace-separated token of the
    version header when the page has one, the string Unknown when it has
    none.  The snippet gives the name and the address of the page, never
    the version. *)
Theorem version_from_detail_page {C : Collaborators}
        (query : string) (opts : options) (debug0 : bool)
        (i : nat) (p : Package) :
  nth_error (yielded (search query opts debug0)) i = Some p ->
  exists snippet name_element rest,
    nth_error (collected_snippets query opts debug0) i = Some snippet
    /\ select_one snippet sel_name = Some name_element
    /\ name p = PyStr.collapse_ws (PyStr.strip (tag_text name_element))
    /\ let st := body_state query opts debug0 i in
       let rq := GET (urljoin Config.api_url (assoc "href" (tag_attrs snippet)))
                     [] [] None in
       let page := BeautifulSoup (text (server (sent st) rq)) in
       sent (final (search query opts debug0)) = (sent st ++ rq :: rest)%list
       /\ extract_version page = Ok (version p)
       /\ match select_one page sel_version with
          | Some header =>
              exists front,
                PyStr.split (tag_text header) = (front ++ [version p])%list
          | None => version p = "Unknown"
          end.
Proof.
  intros Hin. apply search_nth in Hin as (s & Hs & Hb & rest & Hrest).
  destruct (search_body_log _ _ _ _ _ _ Hb) as [tail Htail].
  apply search_body_inv in Hb
    as (name_element & v & dt & desc & pack & extra
        & Hname & Hv & Hpack & _ & Hp).
  apply Package_new_fields in Hpack as (Hn & Hver & _ & _ & _).
  assert (name p = name pack /\ version p = version pack) as [Hpn Hpv].
  { destruct Hp as [[-> _] | [[-> _] | [info [-> _]]]]; split; reflexivity. }
  exists s, name_element, (tail ++ rest)%list.
  rewrite Hpn, Hpv, Hn, Hver.
  split; [exact Hs|]. split; [exact Hname|]. split; [reflexivity|].
  cbv zeta. split; [|split].
  - rewrite Hrest, Htail, <- app_assoc. reflexivity.
  - exact Hv.
  - unfold extract_version, detail_page, detail_url in Hv.
    destruct (select_one _ sel_version) as [header|].
    + apply index_last_snoc. exact Hv.
    + inversion Hv. reflexivity.
Qed.

Lemma version_from_detail_page_witness :
  let sc := Stub.usual Stub.found_json in
  let p := Stub.foo_package sc (PInt 12) (PInt 3) (PInt 0)
                            "https://github.com/owner/foo" true in
  nth_error (yielded (@search (Stub.world sc) "foo" (Stub.flags false true) false)) 0
  = Some p
  /\ exists snippet,
      nth_error (@collected_snippets (Stub.world sc) "foo"
                   (Stub.flags false true) false) 0 = Some snippet
      /\ @extract_version (Stub.world sc)
           (@BeautifulSoup (Stub.world sc)
              (text (@server (Stub.world sc)
                       (sent (@body_state (Stub.world sc) "foo"
                                (Stub.flags false true) false 0))
                       (GET (@urljoin (Stub.world sc) Config.api_url
                               (assoc "href" (@tag_attrs (Stub.world sc) snippet)))
                            [] [] None))))
         = Ok "1.0".
Proof.
  intros sc p.
  assert (nth_error (yielded (@search (Stub.world sc) "foo"
                                (Stub.flags false true) false)) 0 = Some p)
    as Hin by exact eq_refl.
  split; [exact Hin|].
  destruct (@version_from_detail_page (Stub.world sc) "foo"
              (Stub.flags false true) false 0 p Hin)
    as (snippet & name_element & rest & Hs & _ & _ & H).
  cbv zeta in H. destruct H as (_ & Hv & _).
  exists snippet. split; [exact Hs | exact Hv].
Defined.

(** C2 -- Yield number [i] of a search either has all five enrichment fields
    at their defaults, or has the four figures and [info_set] set together by
    [set_gh_info].  Which of the two is decided by what [get_github_info]
    returned in this run for snippet number [i], right after the detail page
    was fetched: whenever it returned an info dict the package carries the
    four values of that dict and [info_set] true, whatever the [set] flag of
    the dict says; when it returned None, or [opts.extra] is false, the
    package has the defaults.  The dict is a filled one ([set] true) or the
    all-zero default one of a lookup that failed, so [info_set] is true
    after such a failed lookup. *)
Theorem enrichment_all_or_nothing {C : Collaborators}
        (query : string) (opts : options) (debug0 : bool)
        (i : nat) (p : Package) :
  nth_error (yielded (search query opts debug0)) i = Some p ->
  exists snippet extra,
    nth_error (collected_snippets query opts debug0) i = Some snippet
    /\ getattr opts "extra" = Ok extra
    /\ let st := body_state query opts debug0 i in
       let url := urljoin Config.api_url (assoc "href" (tag_attrs snippet)) in
       if truthy extra
       then match fst (get_github_info url (auth_of opts)
                         {| DEBUG := DEBUG st;
                            sent := (sent st ++ [GET url [] [] None])%list |}) with
            | Ok (Some info) =>
                (stars p = info_stars info /\ forks p = info_forks info
                 /\ watchers p = info_watchers info
                 /\ github_link p = info_github_link info
                 /\ info_set p = true)
                /\ (info = default_info \/ info_set_flag info = true)
            | Ok None =>
                stars p = PInt 0 /\ forks p = PInt 0 /\ watchers p = PInt 0
                /\ github_link p = "" /\ info_set p = false
            | Raise _ => False
            end
       else stars p = PInt 0 /\ forks p = PInt 0 /\ watchers p = PInt 0
            /\ github_link p = "" /\ info_set p = false.
Proof.
  intros Hin. apply search_nth in Hin as (s & Hs & Hb & _).
  apply search_body_inv in Hb
    as (name_element & v & dt & desc & pack & extra
        & _ & _ & Hpack & He & Hp).
  apply Package_new_fields in Hpack as (_ & _ & _ & _ & Hdefault).
  exists s, extra. split; [exact Hs|]. split; [exact He|].
  cbv zeta. fold (detail_url s).
  fold (after_detail s (body_state query opts debug0 i)).
  destruct Hp as [[-> Ht] | [(-> & Ht & Hinfo) | (info & -> & Ht & Hinfo & _)]];
    rewrite Ht.
  - exact Hdefault.
  - rewrite Hinfo. exact Hdefault.
  - rewrite Hinfo. cbn [fst]. split.
    + exact (set_gh_info_enriched pack info).
    + exact (get_github_info_some _ _ _ _ _ Hinfo).
Qed.

Lemma enrichment_all_or_nothing_witness :
  let sc := Stub.usual (Stub.status 404) in
  let p := Stub.foo_package sc (PInt 0) (PInt 0) (PInt 0) "" true in
  nth_error (yielded (@search (Stub.world sc) "foo" (Stub.flags false true) false)) 0
  = Some p
  /\ exists snippet extra,
      nth_error (@collected_snippets (Stub.world sc) "foo"
                   (Stub.flags false true) false) 0 = Some snippet
      /\ @getattr (Stub.flags false true) "extra" = Ok extra
      /\ let st := @body_state (Stub.world sc) "foo"
                      (Stub.flags false true) false 0 in
         let url := @urljoin (Stub.world sc) Config.api_url
                      (assoc "href" (@tag_attrs (Stub.world sc) snippet)) in
         if truthy extra
         then match fst (@get_github_info (Stub.world sc) url
                           (@auth_of (Stub.world sc) (Stub.flags false true))
                           {| DEBUG := DEBUG st;
                              sent := (sent st ++ [GET url [] [] None])%list |}) with
              | Ok (Some info) =>
                  (@stars (Stub.world sc) p = info_stars info
                   /\ @forks (Stub.world sc) p = info_forks info
                   /\ @watchers (Stub.world sc) p = info_watchers info
                   /\ @github_link (Stub.world sc) p = info_github_link info
                   /\ @info_set (Stub.world sc) p = true)
                  /\ (info = default_info \/ info_set_flag info = true)
              | Ok None =>
                  @stars (Stub.world sc) p = PInt 0
                  /\ @forks (Stub.world sc) p = PInt 0
                  /\ @watchers (Stub.world sc) p = PInt 0
                  /\ @github_link (Stub.world sc) p = ""
                  /\ @info_set (Stub.world sc) p = false
              | Raise _ => False
              end
         else @stars (Stub.world sc) p = PInt 0
              /\ @forks (Stub.world sc) p = PInt 0
              /\ @watchers (Stub.world sc) p = PInt 0
              /\ @github_link (Stub.world sc) p = ""
              /\ @info_set (Stub.world sc) p = false.
Proof.
  intros sc p.
  assert (nth_error (yielded (@search (Stub.world sc) "foo"
                                (Stub.flags false true) false)) 0 = Some p)
    as Hin by exact eq_refl.
  split; [exact Hin|].
  exact (@enrichment_all_or_nothing (Stub.world sc) "foo"
           (Stub.flags false true) false 0 p Hin).
Defined.

(** X17 -- Yield number [i] of a search is consistent with its source: its
    [released_date] is what [strptime] made of its [released] string; its
    version is extracted from the response this run received for the detail
    page of snippet number [i], whose request is in the log of the search
    right after the requests sent before the loop body started; and its
    link is the address of that page (the default project page of its name
    if that address is the empty string). *)
Theorem yielded_package_consistent {C : Collaborators}
        (query : string) (opts : options) (debug0 : bool)
        (i : nat) (p : Package) :
  nth_error (yielded (search query opts debug0)) i = Some p ->
  strptime (released p) "%Y-%m-%dT%H:%M:%S%z" = Some (released_date p)
  /\ exists snippet rest,
      nth_error (collected_snippets query opts debug0) i = Some snippet
      /\ let st := body_state query opts debug0 i in
         let url := urljoin Config.api_url (assoc "href" (tag_attrs snippet)) in
         let rq := GET url [] [] None in
         sent (final (search query opts debug0)) = (sent st ++ rq :: rest)%list
         /\ extract_version (BeautifulSoup (text (server (sent st) rq)))
            = Ok (version p)
         /\ link p = (if String.eqb url ""
                      then "https://pypi.org/project/" ++ name p
                      else url).
Proof.
  intros Hin. apply search_nth in Hin as (s & Hs & Hb & rest & Hrest).
  destruct (search_body_log _ _ _ _ _ _ Hb) as [tail Htail].
  apply search_body_inv in Hb
    as (ne & v & dt & desc & pack & extra & _ & Hv & Hpack & _ & Hp).
  pose proof (Package_new_link_date _ _ _ _ _ _ Hpack) as [Hdate Hlink].
  apply Package_new_fields in Hpack as (_ & Hver & _ & _ & _).
  assert (released p = released pack /\ released_date p = released_date pack
          /\ link p = link pack /\ name p = name pack
          /\ version p = version pack) as (E1 & E2 & E3 & E4 & E5).
  { destruct Hp as [[-> _] | [[-> _] | [info [-> _]]]]; repeat split; reflexivity. }
  rewrite E1, E2, E3, E4, E5, Hver. split; [exact Hdate|].
  exists s, (tail ++ rest)%list. split; [exact Hs|]. cbv zeta.
  split; [|split].
  - rewrite Hrest, Htail, <- app_assoc. reflexivity.
  - exact Hv.
  - exact Hlink.
Qed.

Lemma yielded_package_consistent_witness :
  let sc := Stub.usual Stub.found_json in
  let p := Stub.foo_package sc (PInt 12) (PInt 3) (PInt 0)
                            "https://github.com/owner/foo" true in
  nth_error (yielded (@search (Stub.world sc) "foo" (Stub.flags false true) false)) 0
  = Some p
  /\ @strptime (Stub.world sc) (@released (Stub.world sc) p) "%Y-%m-%dT%H:%M:%S%z"
     = Some (@released_date (Stub.world sc) p).
Proof.
  intros sc p.
  assert (nth_error (yielded (@search (Stub.world sc) "foo"
                                (Stub.flags false true) false)) 0 = Some p)
    as Hin by exact eq_refl.
  split; [exact Hin|].
  exact (proj1 (@yielded_package_consistent (Stub.world sc) "foo"
                  (Stub.flags false true) false 0 p Hin)).
Defined.

(** X18 -- The [github_link] of yield number [i] tells whether the lookup
    succeeded, which [info_set] does not.  When it is empty the three
    figures are the zero defaults.  When it is not, [info_set] is true and
    the figures are read from the answer this run received from the API: the
    request for the repository named after github.com/ in the link follows
    the two requests for the detail page of snippet number [i], the answer
    has status 200 and a body that parses to an object, and stars, forks
    and watchers are its stargazers_count, forks_count and watchers_count
    (0 for a missing key). *)
Theorem github_link_marks_success {C : Collaborators}
        (query : string) (opts : options) (debug0 : bool)
        (i : nat) (p : Package) :
  nth_error (yielded (search query opts debug0)) i = Some p ->
  exists snippet,
    nth_error (collected_snippets query opts debug0) i = Some snippet
    /\ (github_link p = "" ->
        stars p = PInt 0 /\ forks p = PInt 0 /\ watchers p = PInt 0)
    /\ (github_link p <> "" ->
        info_set p = true
        /\ exists after d,
            let dr := GET (urljoin Config.api_url (assoc "href" (tag_attrs snippet)))
                          [] [] None in
            let history := (sent (body_state query opts debug0 i) ++ [dr; dr])%list in
            let answer :=
              server history
                     (GET ("https://api.github.com/repos/"
                             ++ PyStr.rstrip_char "/" after) [] [] (auth_of opts)) in
            nth_error (PyStr.split_sep "github.com/" (github_link p)) 1 = Some after
            /\ status_code answer = 200
            /\ json_body answer = Some (PDict d)
            /\ stars p = dict_get d "stargazers_count" (PInt 0)
            /\ forks p = dict_get d "forks_count" (PInt 0)
            /\ watchers p = dict_get d "watchers_count" (PInt 0)).
Proof.
  intros Hin. apply search_nth in Hin as (s & Hs & Hb & _).
  apply search_body_inv in Hb
    as (ne & v & dt & desc & pack & extra & _ & _ & Hpack & _ & Hp).
  apply Package_new_fields in Hpack as (_ & _ & _ & _ & Hdefault).
  destruct Hdefault as (Hst & Hf & Hw & Hg & Hi).
  exists s. split; [exact Hs|].
  destruct Hp as [[-> _] | [[-> _] | (info & -> & _ & Hinfo & _)]].
  - split; [intros _; repeat split; assumption | intros H; destruct (H Hg)].
  - split; [intros _; repeat split; assumption | intros H; destruct (H Hg)].
  - apply get_github_info_filled_at in Hinfo
      as [-> | (after & d & Hafter & H200 & Hbody & Hfill)].
    + split; [intros _; repeat split; reflexivity | intros H; destruct (H eq_refl)].
    + cbn [set_gh_info github_link stars forks watchers info_set].
      split.
      * intros Hempty. rewrite Hempty in Hafter. discriminate Hafter.
      * intros _. split; [reflexivity|]. exists after, d. cbv zeta.
        cbn [after_detail sent] in H200, Hbody.
        rewrite <- app_assoc in H200, Hbody.
        split; [exact Hafter|]. split; [exact H200|]. split; [exact Hbody|].
        rewrite Hfill. repeat split; reflexivity.
Qed.

Lemma github_link_marks_success_witness :
  let sc := Stub.usual Stub.found_json in
  let p := Stub.foo_package sc (PInt 12) (PInt 3) (PInt 0)
                            "https://github.com/owner/foo" true in
  nth_error (yielded (@search (Stub.world sc) "foo" (Stub.flags false true) false)) 0
  = Some p
  /\ exists snippet,
      nth_error (@collected_snippets (Stub.world sc) "foo"
                   (Stub.flags false true) false) 0 = Some snippet
      /\ exists after d,
          nth_error (PyStr.split_sep "github.com/" "https://github.com/owner/foo") 1
          = Some after
          /\ status_code
               (@server (Stub.world sc)
                  (sent (@body_state (Stub.world sc) "foo"
                           (Stub.flags false true) false 0)
                   ++ [GET (@urljoin (Stub.world sc) Config.api_url
                              (assoc "href" (@tag_attrs (Stub.world sc) snippet)))
                           [] [] None;
                       GET (@urljoin (Stub.world sc) Config.api_url
                              (assoc "href" (@tag_attrs (Stub.world sc) snippet)))
                           [] [] None])%list
                  (GET ("https://api.github.com/repos/"
                          ++ PyStr.rstrip_char "/" after) [] []
                       (@auth_of (Stub.world sc) (Stub.flags false true)))) = 200
          /\ PInt 12 = dict_get d "stargazers_count" (PInt 0)
          /\ PInt 3 = dict_get d "forks_count" (PInt 0)
          /\ PInt 0 = dict_get d "watchers_count" (PInt 0).
Proof.
  intros sc p.
  assert (nth_error (yielded (@search (Stub.world sc) "foo"
                                (Stub.flags false true) false)) 0 = Some p)
    as Hin by exact eq_refl.
  split; [exact Hin|].
  destruct (@github_link_marks_success (Stub.world sc) "foo"
              (Stub.flags false true) false 0 p Hin)
    as (snippet & Hs & _ & H).
  assert (@github_link (Stub.world sc) p <> "") as Hne by discriminate.
  destruct (H Hne) as (_ & after & d & Hd). cbv zeta in Hd.
  destruct Hd as (Hafter & H200 & _ & H1 & H2 & H3).
  exists snippet. split; [exact Hs|].
  exists after, d. split; [exact Hafter|]. split; [exact H200|].
  split; [exact H1|]. split; [exact H2 | exact H3].
Defined.
